(** * Stock_Bro: indicator engine and train/predict pipeline

    A shallow embedding of [stock_bro/analysis/technical.py],
    [stock_bro/ai/predictor.py] and the prediction route of
    [stock_bro/api/routes.py], with the properties of the design
    specification stated against it, followed by further properties of the
    same code.

    Numbers.  A Python/numpy [float64] is modelled by [float]: a canonical
    rational, one of the two infinities, or NaN.  Arithmetic on finite values
    is exact (no rounding, no overflow) and there is a single zero, which is
    treated as the positive one by division.  The IEEE rules for NaN and the
    infinities are written out, since the code relies on them (the RSI
    divides by a zero average loss, comparisons with NaN are false).

    Libraries.  pandas, numpy and scikit-learn are not part of the
    repository.  The pandas and numpy operations used by the code are
    modelled by their documented semantics in the modules [Numpy] and
    [Pandas]; the square root, the scaler and the regressor are interfaces
    ([Sqrt], [Scaler], [Regressor]) with the contracts the code relies on. *)

From stdpp Require Import base numbers list strings gmap.
From stdpp Require Import pretty.
From Stdlib Require Import QArith Qcanon Qround Lia Lqa Sorted.

Set Default Proof Using "Type".
Close Scope Qc_scope.
Close Scope Q_scope.
Open Scope nat_scope.

(* ===================================================================== *)
(** * Floating-point values *)
(* ===================================================================== *)

Module Float.

Inductive float : Type :=
| NaN
| PInf
| NInf
| Fin (q : Qc).

Definition of_Z (z : Z) : float := Fin (Qc_of_Z z).
Definition of_nat (n : nat) : float := of_Z (Z.of_nat n).

Definition Qc_ltb (x y : Qc) : bool :=
  match (x ?= y)%Qc with Lt => true | _ => false end.
Definition Qc_eqb (x y : Qc) : bool :=
  match (x ?= y)%Qc with Eq => true | _ => false end.
Definition Qc_leb (x y : Qc) : bool :=
  match (x ?= y)%Qc with Gt => false | _ => true end.

Definition fneg (a : float) : float :=
  match a with
  | NaN => NaN
  | PInf => NInf
  | NInf => PInf
  | Fin q => Fin (- q)%Qc
  end.

Definition fadd (a b : float) : float :=
  match a, b with
  | NaN, _ | _, NaN => NaN
  | PInf, NInf | NInf, PInf => NaN
  | PInf, _ | _, PInf => PInf
  | NInf, _ | _, NInf => NInf
  | Fin x, Fin y => Fin (x + y)%Qc
  end.

Definition fsub (a b : float) : float := fadd a (fneg b).

(** [inf * 0] is NaN; otherwise the sign of the product decides. *)
Definition inf_times (pos : bool) (y : Qc) : float :=
  match (y ?= 0)%Qc with
  | Eq => NaN
  | Gt => if pos then PInf else NInf
  | Lt => if pos then NInf else PInf
  end.

Definition fmul (a b : float) : float :=
  match a, b with
  | NaN, _ | _, NaN => NaN
  | PInf, PInf | NInf, NInf => PInf
  | PInf, NInf | NInf, PInf => NInf
  | PInf, Fin y | Fin y, PInf => inf_times true y
  | NInf, Fin y | Fin y, NInf => inf_times false y
  | Fin x, Fin y => Fin (x * y)%Qc
  end.

(** Division never raises on floats: [x / 0] is an infinity of the sign of
    [x], [0 / 0] and [inf / inf] are NaN, and a finite value divided by an
    infinity is zero. *)
Definition fdiv (a b : float) : float :=
  match a, b with
  | NaN, _ | _, NaN => NaN
  | (PInf | NInf), (PInf | NInf) => NaN
  | Fin _, (PInf | NInf) => Fin 0%Qc
  | PInf, Fin y => if Qc_ltb y 0 then NInf else PInf
  | NInf, Fin y => if Qc_ltb y 0 then PInf else NInf
  | Fin x, Fin y =>
      if Qc_eqb y 0 then
        match (x ?= 0)%Qc with Eq => NaN | Gt => PInf | Lt => NInf end
      else Fin (x / y)%Qc
  end.

Definition fabs (a : float) : float :=
  match a with
  | NaN => NaN
  | PInf | NInf => PInf
  | Fin q => Fin (if Qc_ltb q 0 then - q else q)%Qc
  end.

(** Comparisons: every comparison with NaN is false. *)
Definition flt (a b : float) : bool :=
  match a, b with
  | NaN, _ | _, NaN => false
  | NInf, (PInf | Fin _) => true
  | Fin _, PInf => true
  | Fin x, Fin y => Qc_ltb x y
  | _, _ => false
  end.

Definition feq (a b : float) : bool :=
  match a, b with
  | PInf, PInf | NInf, NInf => true
  | Fin x, Fin y => Qc_eqb x y
  | _, _ => false
  end.

Definition fgt (a b : float) : bool := flt b a.
Definition fle (a b : float) : bool := flt a b || feq a b.
Definition fge (a b : float) : bool := fle b a.

Definition isnan (a : float) : bool :=
  match a with NaN => true | _ => false end.

Definition finite (a : float) : option Qc :=
  match a with Fin q => Some q | _ => None end.

(** The square root of the platform, as an interface: all the code relies
    on is that it is defined and non-negative on non-negative arguments. *)
Class Sqrt := {
  qsqrt : Qc → Qc;
  qsqrt_nonneg : ∀ q, (0 ≤ qsqrt q)%Qc
}.

Definition fsqrt `{Sqrt} (a : float) : float :=
  match a with
  | NaN | NInf => NaN
  | PInf => PInf
  | Fin q => if Qc_ltb q 0 then NaN else Fin (qsqrt q)
  end.

(** Python's builtin [min(a, b)]: the second argument wins only when it is
    strictly smaller. *)
Definition py_min (a b : float) : float := if flt b a then b else a.

End Float.
Export Float.

(* ===================================================================== *)
(** * Python exceptions and results *)
(* ===================================================================== *)

Module Python.

(** The exceptions the modelled code can raise.  The code raises plain
    [ValueError]s told apart by their message; pandas raises [IndexError]
    for a position outside a series and [KeyError] for a missing column;
    scikit-learn raises [NotFittedError] for an unfitted estimator. *)
Inductive exn : Type :=
| ValueError (msg : string)
| IndexError
| KeyError (key : string)
| NotFittedError.

Inductive outcome (A : Type) : Type :=
| Ok (a : A)
| Raise (e : exn).
Global Arguments Ok {A} a.
Global Arguments Raise {A} e.

Global Instance outcome_ret : MRet outcome := λ A a, Ok a.
Global Instance outcome_bind : MBind outcome := λ A B f m,
  match m with
  | Ok a => f a
  | Raise e => Raise e
  end.
Global Instance outcome_fmap : FMap outcome := λ A B f m,
  match m with
  | Ok a => Ok (f a)
  | Raise e => Raise e
  end.

Definition is_ok {A} (m : outcome A) : bool :=
  match m with Ok _ => true | Raise _ => false end.

(** [xs[k]] with Python's negative positions. *)
Definition py_index {A} (xs : list A) (k : Z) : outcome A :=
  let n := Z.of_nat (length xs) in
  let pos := if (k <? 0)%Z then (n + k)%Z else k in
  if (pos <? 0)%Z then Raise IndexError
  else match xs !! Z.to_nat pos with
       | Some x => Ok x
       | None => Raise IndexError
       end.

(** [xs[a:b]] for non-negative bounds; slices never raise. *)
Definition py_slice {A} (xs : list A) (a b : nat) : list A :=
  drop a (take b xs).

(** [range(a, b)]. *)
Definition range (a b : nat) : list nat := seq a (b - a).


(** The builtins [min(xs, default=d)] and [max(xs, default=d)] on floats:
    the first smallest (largest) element, or the default on an empty list. *)
Definition py_min_default (xs : list float) (default : float) : float :=
  match xs with
  | [] => default
  | x :: rest => foldl (λ best y, if flt y best then y else best) x rest
  end.

Definition py_max_default (xs : list float) (default : float) : float :=
  match xs with
  | [] => default
  | x :: rest => foldl (λ best y, if flt best y then y else best) x rest
  end.

End Python.
Export Python.

(* ===================================================================== *)
(** * numpy reductions *)
(* ===================================================================== *)

Module Numpy.

Definition np_sum (values : list float) : float :=
  foldl fadd (Fin 0%Qc) values.

(** [np.mean]: the sum over the count; NaN ([0/0]) on an empty array. *)
Definition np_mean (values : list float) : float :=
  fdiv (np_sum values) (of_nat (length values)).

(** [np.std] with its default [ddof=0]: the root of the mean squared
    deviation from the mean. *)
Definition np_std `{Sqrt} (values : list float) : float :=
  let m := np_mean values in
  fsqrt (np_mean ((λ x, let d := fsub x m in fmul d d) <$> values)).

End Numpy.
Export Numpy.

(* ===================================================================== *)
(** * pandas series and frames *)
(* ===================================================================== *)

Module Pandas.

Abbreviation Series := (list float).

(** Window functions first turn infinities into missing values. *)
Definition prep_value (x : float) : option Qc := finite x.

Definition observations (win : list float) : list Qc := omap prep_value win.

(** The trailing window of width [w] ending at position [i]. *)
Definition window_at (w i : nat) (s : Series) : list float :=
  drop (S i - w) (take (S i) s).

Definition Qc_sum (xs : list Qc) : Qc := foldl Qcplus 0%Qc xs.
Definition Qc_of_nat (n : nat) : Qc := Qc_of_Z (Z.of_nat n).
Definition Qc_mean (xs : list Qc) : Qc := (Qc_sum xs / Qc_of_nat (length xs))%Qc.

(** [series.rolling(window)]: with the default [min_periods = window] a
    position has a value only when its window holds [window] observations
    (and at least one). *)
Definition rolling (w : nat) (agg : list Qc → float) (s : Series) : Series :=
  (λ i, let obs := observations (window_at w i s) in
        if bool_decide (w ≤ length obs ∧ 0 < length obs) then agg obs else NaN)
    <$> seq 0 (length s).

Definition mean_agg (obs : list Qc) : float := Fin (Qc_mean obs).

(** Sample variance ([ddof = 1]): undefined for a single observation. *)
Definition var_agg (obs : list Qc) : option Qc :=
  let nobs := length obs in
  if bool_decide (nobs ≤ 1) then None
  else
    let m := Qc_mean obs in
    let ssqdm := Qc_sum ((λ x, (x - m) * (x - m))%Qc <$> obs) in
    Some (ssqdm / Qc_of_nat (nobs - 1))%Qc.

(** The root of the variance, a negative variance counting as zero. *)
Definition zsqrt `{Sqrt} (v : Qc) : Qc :=
  if Qc_ltb v 0 then 0%Qc else qsqrt v.

Definition std_agg `{Sqrt} (obs : list Qc) : float :=
  match var_agg obs with
  | None => NaN
  | Some v => Fin (zsqrt v)
  end.

Definition rolling_mean (w : nat) (s : Series) : Series := rolling w mean_agg s.
Definition rolling_std `{Sqrt} (w : nat) (s : Series) : Series := rolling w std_agg s.

(** [series.ewm(span=span).mean()] with the defaults [adjust=True],
    [ignore_na=False], [min_periods=0]: the weighted average is carried
    along with the weight of the past. *)
Record ewm_state : Type := {
  weighted : option Qc;
  old_wt : Qc;
  nobs : nat
}.

Definition is_observation (cur : option Qc) : nat :=
  match cur with Some _ => 1 | None => 0 end.

Definition ewm_step (old_wt_factor : Qc) (st : ewm_state) (cur : option Qc)
  : ewm_state :=
  let nobs' := is_observation cur + nobs st in
  match weighted st with
  | Some wavg =>
      let wt := (old_wt st * old_wt_factor)%Qc in
      match cur with
      | Some x =>
          let wavg' := if Qc_eqb wavg x then wavg
                       else ((wt * wavg + x) / (wt + 1))%Qc in
          {| weighted := Some wavg'; old_wt := (wt + 1)%Qc; nobs := nobs' |}
      | None => {| weighted := Some wavg; old_wt := wt; nobs := nobs' |}
      end
  | None => {| weighted := cur; old_wt := old_wt st; nobs := nobs' |}
  end.

Definition ewm_output (st : ewm_state) : float :=
  if bool_decide (1 ≤ nobs st) then from_option Fin NaN (weighted st) else NaN.

Fixpoint ewm_loop (f : Qc) (st : ewm_state) (vals : list (option Qc)) : Series :=
  match vals with
  | [] => []
  | cur :: rest =>
      let st' := ewm_step f st cur in
      ewm_output st' :: ewm_loop f st' rest
  end.

Definition ewm_mean (span : nat) (s : Series) : Series :=
  let alpha := (Qc_of_Z 2 / (Qc_of_nat span + 1))%Qc in
  match prep_value <$> s with
  | [] => []
  | first :: rest =>
      let st := {| weighted := first; old_wt := 1%Qc;
                   nobs := is_observation first |} in
      ewm_output st :: ewm_loop (1 - alpha)%Qc st rest
  end.

(** [series.shift(1)]. *)
Definition shift1 (s : Series) : Series :=
  match s with
  | [] => []
  | _ => NaN :: take (length s - 1) s
  end.

(** [series.diff()]. *)
Definition diff (s : Series) : Series := zip_with fsub s (shift1 s).

(** [series.pct_change()] on a series without gaps: [s / s.shift(1) - 1]. *)
Definition pct_change (s : Series) : Series :=
  (λ r, fsub r (of_Z 1)) <$> zip_with fdiv s (shift1 s).

(** [series.where(cond, other)]. *)
Definition series_where (cond : float → bool) (other : float) (s : Series) : Series :=
  (λ x, if cond x then x else other) <$> s.

(** A bar as delivered by the data provider. *)
Record Bar : Type := {
  open : Qc;
  high : Qc;
  low : Qc;
  close : Qc;
  volume : N
}.

(** A frame: the provider's bars and the columns added later by name. *)
Record DataFrame : Type := {
  bars : list Bar;
  derived : gmap string Series
}.

Definition len (d : DataFrame) : nat := length (bars d).

Definition ohlcv : list string := ["Open"; "High"; "Low"; "Close"; "Volume"].

(** [data[name]], [None] standing for pandas' [KeyError]. *)
Definition column (d : DataFrame) (name : string) : option Series :=
  if decide (name = "Open") then Some ((λ b, Fin (open b)) <$> bars d)
  else if decide (name = "High") then Some ((λ b, Fin (high b)) <$> bars d)
  else if decide (name = "Low") then Some ((λ b, Fin (low b)) <$> bars d)
  else if decide (name = "Close") then Some ((λ b, Fin (close b)) <$> bars d)
  else if decide (name = "Volume")
       then Some ((λ b, of_Z (Z.of_N (volume b))) <$> bars d)
  else derived d !! name.

Definition getitem (d : DataFrame) (name : string) : outcome Series :=
  match column d name with
  | Some s => Ok s
  | None => Raise (KeyError name)
  end.

(** [data[name] = s] for a name that is not one of the provider's. *)
Definition setitem (name : string) (s : Series) (d : DataFrame) : DataFrame :=
  {| bars := bars d; derived := <[name := s]> (derived d) |}.

(** [name in data.columns]. *)
Definition has_column (d : DataFrame) (name : string) : bool :=
  bool_decide (is_Some (column d name)).

(** A series without gaps, and one whose values are never negative. *)
Definition finite_series (s : Series) : Prop :=
  Forall (λ x, is_Some (finite x)) s.

Definition nonneg_series (s : Series) : Prop :=
  Forall (λ x, ∀ q, x = Fin q → (0 ≤ q)%Qc) s.

(** The data model's invariant on prices. *)
Definition positive_closes (d : DataFrame) : Prop :=
  Forall (λ b, (0 < close b)%Qc) (bars d).


(** [series.ewm(span=span).mean()] with the check pandas makes on the span. *)
Definition span_error : exn := ValueError "span must satisfy: span >= 1".

Definition ewm (span : nat) (s : Series) : outcome Series :=
  if bool_decide (span < 1) then Raise span_error else Ok (ewm_mean span s).

(** The window of width [w] centred on position [i], as the fixed window
    indexer cuts it: it ends [(w - 1) // 2] positions after [i] and is
    clipped to the series. *)
Definition centered_window_at (w i : nat) (s : Series) : list float :=
  let stop := i + 1 + (w - 1) / 2 in
  drop (stop - w) (take stop s).

(** [series.rolling(window, center=True)], again with
    [min_periods = window]. *)
Definition rolling_centered (w : nat) (agg : list Qc → float) (s : Series)
  : Series :=
  (λ i, let obs := observations (centered_window_at w i s) in
        if bool_decide (w ≤ length obs ∧ 0 < length obs) then agg obs else NaN)
    <$> seq 0 (length s).

Definition Qc_max (x y : Qc) : Qc := if Qc_ltb x y then y else x.
Definition Qc_min (x y : Qc) : Qc := if Qc_ltb y x then y else x.

Definition max_agg (obs : list Qc) : float :=
  match obs with
  | [] => NaN
  | x :: rest => Fin (foldl Qc_max x rest)
  end.

Definition min_agg (obs : list Qc) : float :=
  match obs with
  | [] => NaN
  | x :: rest => Fin (foldl Qc_min x rest)
  end.

(** [series[series == other]]: the values at the positions where the two
    series compare equal. *)
Definition where_equal (s other : Series) : Series :=
  omap (λ '(x, y), if feq x y then Some x else None) (zip s other).

#[export] Instance float_eq_dec : EqDecision float.
Proof. solve_decision. Defined.

(** [series.unique()]: the distinct values in the order they first appear. *)
Definition unique (s : Series) : Series :=
  foldl (λ seen x, if decide (x ∈ seen) then seen else seen ++ [x]) [] s.


(** A series of numbers that all lie between two bounds. *)
Definition series_within (lo hi : Qc) (s : Series) : Prop :=
  Forall (λ x, ∃ q, x = Fin q ∧ (lo ≤ q)%Qc ∧ (q ≤ hi)%Qc) s.

End Pandas.
Export Pandas.

(* ===================================================================== *)
(** * stock_bro.analysis.technical *)
(* ===================================================================== *)

Module TechnicalAnalyzer.

(** The three steps of the RSI, as both [calculate_rsi] and
    [prepare_features] write them. *)
Definition rsi_gain (window : nat) (s : Series) : Series :=
  rolling_mean window (series_where (λ x, fgt x (of_Z 0)) (of_Z 0) (diff s)).

Definition rsi_loss (window : nat) (s : Series) : Series :=
  rolling_mean window
    (fneg <$> series_where (λ x, flt x (of_Z 0)) (of_Z 0) (diff s)).

Definition rsi_from_rs (rs : float) : float :=
  fsub (of_Z 100) (fdiv (of_Z 100) (fadd (of_Z 1) rs)).

Definition rsi_of (gain loss : Series) : Series :=
  rsi_from_rs <$> zip_with fdiv gain loss.

Definition calculate_sma (data : DataFrame) (window : nat) (column : string)
  : outcome Series :=
  s ← getitem data column;
  mret (rolling_mean window s).

Definition calculate_ema (data : DataFrame) (window : nat) (column : string)
  : outcome Series :=
  s ← getitem data column;
  ewm window s.

Definition calculate_rsi (data : DataFrame) (window : nat) (column : string)
  : outcome Series :=
  s ← getitem data column;
  mret (rsi_of (rsi_gain window s) (rsi_loss window s)).

Record Bands : Type := {
  upper : Series;
  middle : Series;
  lower : Series
}.

Definition calculate_bollinger_bands `{Sqrt}
    (data : DataFrame) (window : nat) (num_std : Qc) (column : string)
  : outcome Bands :=
  sma ← calculate_sma data window column;
  s ← getitem data column;
  let std := rolling_std window s in
  let band := (λ x, fmul x (Fin num_std)) <$> std in
  mret {| upper := zip_with fadd sma band;
          middle := sma;
          lower := zip_with fsub sma band |}.


Record TrendAnalysis : Type := {
  trend : string;
  strength : float;
  price_change_pct : float;
  sma_short : float;
  sma_long : float
}.

Definition classify (current_short current_long : float) : string :=
  if fgt current_short current_long then "bullish"
  else if flt current_short current_long then "bearish"
  else "neutral".

Definition analyze_trend (data : DataFrame) (window : nat)
  : outcome TrendAnalysis :=
  short ← calculate_sma data (window / 2) "Close";
  long ← calculate_sma data window "Close";
  current_short ← py_index short (-1);
  current_long ← py_index long (-1);
  closes ← getitem data "Close";
  last_close ← py_index closes (-1);
  base_close ← py_index closes (- Z.of_nat window);
  let price_change := fdiv (fsub last_close base_close) base_close in
  mret {| trend := classify current_short current_long;
          strength := fabs price_change;
          price_change_pct := fmul price_change (of_Z 100);
          sma_short := current_short;
          sma_long := current_long |}.

(** What [analyze_trend] returns when it returns. *)
Definition trend_result_ok (data : DataFrame) (window : nat) (r : TrendAnalysis)
  : Prop :=
  trend r ∈ ["bullish"; "bearish"; "neutral"] ∧
  (∃ short, calculate_sma data (window / 2) "Close" = Ok short ∧
            last short = Some (sma_short r)) ∧
  (∃ long, calculate_sma data window "Close" = Ok long ∧
           last long = Some (sma_long r)) ∧
  (fgt (sma_short r) (sma_long r) = true → trend r = "bullish") ∧
  (flt (sma_short r) (sma_long r) = true → trend r = "bearish") ∧
  (fgt (sma_short r) (sma_long r) = false →
   flt (sma_short r) (sma_long r) = false → trend r = "neutral") ∧
  fge (strength r) (of_Z 0) = true.


Record MACD : Type := {
  macd : Series;
  signal : Series;
  histogram : Series
}.

Definition calculate_macd (data : DataFrame) (fast slow sig : nat) (column : string)
  : outcome MACD :=
  s ← getitem data column;
  ema_fast ← ewm fast s;
  s' ← getitem data column;
  ema_slow ← ewm slow s';
  let line := zip_with fsub ema_fast ema_slow in
  signal_line ← ewm sig line;
  mret {| macd := line;
          signal := signal_line;
          histogram := zip_with fsub line signal_line |}.

Record Levels : Type := {
  support : float;
  resistance : float;
  level_price : float
}.

(** The decimal literals [1.1] and [0.9]. *)
Definition resistance_factor : float := Fin (Qc_of_Z 11 / Qc_of_Z 10)%Qc.
Definition support_factor : float := Fin (Qc_of_Z 9 / Qc_of_Z 10)%Qc.

Definition get_support_resistance_levels (data : DataFrame) (window : nat)
  : outcome Levels :=
  high ← getitem data "High";
  let highs := rolling_centered window max_agg high in
  low ← getitem data "Low";
  let lows := rolling_centered window min_agg low in
  let resistance_levels := unique (where_equal high highs) in
  let support_levels := unique (where_equal low lows) in
  closes ← getitem data "Close";
  current_price ← py_index closes (-1);
  let res := py_min_default (filter (λ r, fgt r current_price) resistance_levels)
                            (fmul current_price resistance_factor) in
  let sup := py_max_default (filter (λ s, flt s current_price) support_levels)
                            (fmul current_price support_factor) in
  mret {| support := sup; resistance := res; level_price := current_price |}.

(** The levels the function picks from, once the price is known. *)
Definition resistance_candidates (d : DataFrame) (window : nat) (price : float)
  : list float :=
  let high := (λ b, Fin (high b)) <$> bars d in
  filter (λ r, fgt r price)
         (unique (where_equal high (rolling_centered window max_agg high))).

Definition support_candidates (d : DataFrame) (window : nat) (price : float)
  : list float :=
  let low := (λ b, Fin (low b)) <$> bars d in
  filter (λ s, flt s price)
         (unique (where_equal low (rolling_centered window min_agg low))).

(** Bar [i] has the highest high (the lowest low) of the window of [w] bars
    centred on it, and that window lies wholly inside the frame. *)
Definition highest_in_window (d : DataFrame) (w i : nat) (b : Bar) : Prop :=
  let stop := i + 1 + (w - 1) / 2 in
  bars d !! i = Some b ∧ w ≤ stop ∧ stop ≤ len d ∧
  ∀ j b', stop - w ≤ j < stop → bars d !! j = Some b' → (high b' ≤ high b)%Qc.

Definition lowest_in_window (d : DataFrame) (w i : nat) (b : Bar) : Prop :=
  let stop := i + 1 + (w - 1) / 2 in
  bars d !! i = Some b ∧ w ≤ stop ∧ stop ≤ len d ∧
  ∀ j b', stop - w ≤ j < stop → bars d !! j = Some b' → (low b ≤ low b')%Qc.


End TechnicalAnalyzer.
Export TechnicalAnalyzer.

(* ===================================================================== *)
(** * scikit-learn: the pieces the predictor calls *)
(* ===================================================================== *)

Module Sklearn.

Abbreviation Matrix := (list (list float)).

(** [StandardScaler]: fitting captures a state, transforming is row-wise;
    both are total, undefined values being passed through. *)
Class Scaler := {
  scaler_state : Type;
  scaler_fit : Matrix → scaler_state;
  scaler_transform_row : scaler_state → list float → list float
}.

Definition scaler_transform `{Scaler} (st : scaler_state) (X : Matrix) : Matrix :=
  scaler_transform_row st <$> X.

(** [RandomForestRegressor(n_estimators=100, max_depth=10, random_state=42)]:
    with the seed fixed, fitting is a function of the training set.  The
    importances of a fitted forest are one non-negative score per
    feature.  Fitting and predicting are taken to be total: the rows the
    feature builder produces hold undefined values in the warm-up of their
    columns, which the forest has to accept as missing values. *)
Class Regressor := {
  forest : Type;
  forest_fit : Matrix → list float → forest;
  forest_predict_row : forest → list float → float;
  feature_importances_ : forest → list Qc;
  feature_importances_nonneg :
    ∀ m, Forall (λ q, (0 ≤ q)%Qc) (feature_importances_ m);
  feature_importances_nonempty : ∀ m, feature_importances_ m ≠ []
}.

Definition forest_predict `{Regressor} (m : forest) (X : Matrix) : list float :=
  forest_predict_row m <$> X.

Definition split_range_error : exn :=
  ValueError "test_size should be a float in the (0, 1) range".
Definition split_empty_error : exn :=
  ValueError "the resulting train set will be empty".

(** [_validate_shuffle_split] for a float [test_size] and no
    [train_size]: the test part is rounded up, the train part is the
    rest and must not be empty. *)
Definition validate_shuffle_split (n_samples : nat) (test_size : Qc)
  : outcome (nat * nat) :=
  if Qc_leb test_size 0 || Qc_leb 1 test_size then Raise split_range_error
  else
    let n_test := Z.to_nat (Qceiling (test_size * Qc_of_nat n_samples)%Qc) in
    let n_train := n_samples - n_test in
    if bool_decide (n_train = 0) then Raise split_empty_error
    else Ok (n_train, n_test).

(** The size of the train part as the specification words it: the share
    [1 - test_size] of the samples, rounded down. *)
Definition spec_n_train (n_samples : nat) (test_size : Qc) : nat :=
  Z.to_nat (Qfloor (this ((1 - test_size) * Qc_of_nat n_samples)%Qc)).

(** [_safe_indexing]: the rows at the given positions, in that order. *)
Definition safe_indexing {A} (xs : list A) (indices : list nat) : list A :=
  omap (λ i, xs !! i) indices.

(** [train_test_split(X, y, test_size=..., shuffle=False)]: the train
    positions are [arange(n_train)], the test positions
    [arange(n_train, n_train + n_test)]. *)
Definition train_test_split {A B} (X : list A) (y : list B) (test_size : Qc)
  : outcome (list A * list A * list B * list B) :=
  '(n_train, n_test) ← validate_shuffle_split (length X) test_size;
  let train := seq 0 n_train in
  let test := seq n_train n_test in
  mret (safe_indexing X train, safe_indexing X test,
        safe_indexing y train, safe_indexing y test).

Definition mean_squared_error (y_true y_pred : list float) : float :=
  np_mean (zip_with (λ a b, let d := fsub a b in fmul d d) y_true y_pred).

Definition mean_absolute_error (y_true y_pred : list float) : float :=
  np_mean (zip_with (λ a b, fabs (fsub a b)) y_true y_pred).

End Sklearn.
Export Sklearn.

(* ===================================================================== *)
(** * stock_bro.ai.predictor *)
(* ===================================================================== *)

Module Predictor.
Section Predictor.
Context `{Sqrt, Scaler, Regressor}.

(** The attributes of a [StockPredictor]: [model] is [None] until a
    forest is installed, [scaler] is unfitted until [fit_transform]. *)
Record StockPredictor : Type := {
  model : option forest;
  scaler : option scaler_state;
  feature_columns : list string
}.

(** [__init__]. *)
Definition init : StockPredictor :=
  {| model := None; scaler := None; feature_columns := [] |}.

(** The objects a method call can touch: the predictor itself and the
    frame the caller passed in, which the method shares with the caller. *)
Record world : Type := {
  self : StockPredictor;
  data : DataFrame
}.

(** Methods run in a state and exception monad over [world]; the state
    reached when an exception is raised is kept. *)
Definition M (A : Type) : Type := world → outcome A * world.

#[export] Instance M_ret : MRet M := λ A a w, (Ok a, w).
#[export] Instance M_bind : MBind M := λ A B f m w,
  match m w with
  | (Ok a, w') => f a w'
  | (Raise e, w') => (Raise e, w')
  end.

Definition raise {A} (e : exn) : M A := λ w, (Raise e, w).
Definition lift {A} (o : outcome A) : M A := λ w, (o, w).
Definition get_self : M StockPredictor := λ w, (Ok (self w), w).
Definition get_data : M DataFrame := λ w, (Ok (data w), w).
Definition put_self (p : StockPredictor) : M unit :=
  λ w, (Ok (), {| self := p; data := data w |}).
Definition put_data (d : DataFrame) : M unit :=
  λ w, (Ok (), {| self := self w; data := d |}).

(** [data[name]]. *)
Definition read (name : string) : M Series :=
  d ← get_data; lift (getitem d name).

(** [data[name] = s]. *)
Definition assign (name : string) (s : Series) : M unit :=
  d ← get_data; put_data (setitem name s d).

(** [data[name] = f(data[src])]. *)
Definition assign_from (name src : string) (f : Series → Series) : M unit :=
  s ← read src; assign name (f s).

Definition set_feature_columns (cols : list string) : M unit :=
  p ← get_self;
  put_self {| model := model p; scaler := scaler p; feature_columns := cols |}.

Definition set_scaler (st : scaler_state) : M unit :=
  p ← get_self;
  put_self {| model := model p; scaler := Some st;
              feature_columns := feature_columns p |}.

Definition set_model (m : forest) : M unit :=
  p ← get_self;
  put_self {| model := Some m; scaler := scaler p;
              feature_columns := feature_columns p |}.

Definition default_lookback : nat := 30.

Definition indicator_columns : list string :=
  ["sma_5"; "sma_10"; "sma_20"; "ema_12"; "ema_26";
   "rsi"; "volume_ratio"; "price_change"; "volatility"].

(** The three features of one column at position [i]; a column that is
    not in the frame is skipped. *)
Definition column_features (d : DataFrame) (lookback_days i : nat) (col : string)
  : outcome (list float) :=
  if has_column d col then
    s ← getitem d col;
    let values := py_slice s (i - lookback_days) i in
    latest ← py_index values (-1);
    mret [np_mean values; np_std values; latest]
  else mret [].

Definition feature_row (d : DataFrame) (cols : list string) (lookback_days i : nat)
  : outcome (list float) :=
  parts ← mapM (column_features d lookback_days i) cols;
  mret (List.concat parts).

(** The target at position [i]: the next bar's relative price change. *)
Definition target (d : DataFrame) (i : nat) : outcome float :=
  closes ← getitem d "Close";
  current_price ← py_index closes (Z.of_nat i);
  next_price ← py_index closes (Z.of_nat (i + 1));
  mret (fdiv (fsub next_price current_price) current_price).

(** The loop [for i in range(lookback_days, len(data) - 1)]. *)
Definition create_sequences (d : DataFrame) (cols : list string) (lookback_days : nat)
  : outcome (Matrix * list float) :=
  pairs ← mapM (λ i, row ← feature_row d cols lookback_days i;
                     t ← target d i;
                     mret (row, t))
               (range lookback_days (len d - 1));
  mret (fst <$> pairs, snd <$> pairs).

Definition prepare_features (lookback_days : nat) : M (Matrix * list float) :=
  assign_from "sma_5" "Close" (rolling_mean 5);;
  assign_from "sma_10" "Close" (rolling_mean 10);;
  assign_from "sma_20" "Close" (rolling_mean 20);;
  assign_from "ema_12" "Close" (ewm_mean 12);;
  assign_from "ema_26" "Close" (ewm_mean 26);;
  assign_from "rsi" "Close" (λ s, rsi_of (rsi_gain 14 s) (rsi_loss 14 s));;
  assign_from "volume_sma" "Volume" (rolling_mean 20);;
  vol ← read "Volume";
  volume_sma ← read "volume_sma";
  assign "volume_ratio" (zip_with fdiv vol volume_sma);;
  assign_from "price_change" "Close" pct_change;;
  assign_from "volatility" "Close" (rolling_std 20);;
  set_feature_columns indicator_columns;;
  p ← get_self;
  d ← get_data;
  lift (create_sequences d (feature_columns p) lookback_days).

(** The columns written by [prepare_features], in the order of the
    assignments, with the series each one receives. *)
Definition indicator_table (d : DataFrame) : list (string * Series) :=
  let closes := (λ b, Fin (close b)) <$> bars d in
  let volumes := (λ b, of_Z (Z.of_N (volume b))) <$> bars d in
  [("sma_5", rolling_mean 5 closes);
   ("sma_10", rolling_mean 10 closes);
   ("sma_20", rolling_mean 20 closes);
   ("ema_12", ewm_mean 12 closes);
   ("ema_26", ewm_mean 26 closes);
   ("rsi", rsi_of (rsi_gain 14 closes) (rsi_loss 14 closes));
   ("volume_sma", rolling_mean 20 volumes);
   ("volume_ratio", zip_with fdiv volumes (rolling_mean 20 volumes));
   ("price_change", pct_change closes);
   ("volatility", rolling_std 20 closes)].

Definition written_columns : list string :=
  ["sma_5"; "sma_10"; "sma_20"; "ema_12"; "ema_26";
   "rsi"; "volume_sma"; "volume_ratio"; "price_change"; "volatility"].

(** The frame after these assignments. *)
Definition with_indicators (d : DataFrame) : DataFrame :=
  foldl (λ d' kv, setitem kv.1 kv.2 d') d (indicator_table d).

(** [d'] is [d] with the indicator columns written and nothing else
    touched. *)
Definition indicators_written (d d' : DataFrame) : Prop :=
  bars d' = bars d ∧
  Forall (λ kv, derived d' !! kv.1 = Some kv.2) (indicator_table d) ∧
  ∀ name, name ∉ written_columns → derived d' !! name = derived d !! name.

(** The three features of a column at position [i], and a whole row. *)
Definition is_feature_triple (d : DataFrame) (lookback_days i : nat)
    (col : string) (triple : list float) : Prop :=
  ∃ s latest,
    column d col = Some s ∧
    last (py_slice s (i - lookback_days) i) = Some latest ∧
    triple = [np_mean (py_slice s (i - lookback_days) i);
              np_std (py_slice s (i - lookback_days) i);
              latest].

Definition is_feature_row (d : DataFrame) (lookback_days i : nat)
    (row : list float) : Prop :=
  ∃ triples,
    Forall2 (is_feature_triple d lookback_days i) indicator_columns triples ∧
    row = List.concat triples.

(** The forward return at position [i]. *)
Definition is_target (d : DataFrame) (i : nat) (t : float) : Prop :=
  ∃ b0 b1,
    bars d !! i = Some b0 ∧ bars d !! (i + 1) = Some b1 ∧
    t = fdiv (fsub (Fin (close b1)) (Fin (close b0))) (Fin (close b0)).

(** The predictor once [prepare_features] has recorded its column list. *)
Definition prepared (p : StockPredictor) : StockPredictor :=
  {| model := model p; scaler := scaler p; feature_columns := indicator_columns |}.

(** The number of positions the feature loop visits by default. *)
Definition derivable_rows (d : DataFrame) : nat :=
  length (range default_lookback (len d - 1)).

Definition InsufficientDataError_train : exn :=
  ValueError "Not enough data for training. Need at least 50 samples.".
Definition InsufficientDataError_predict : exn :=
  ValueError "Not enough data for prediction.".
Definition NotTrainedError : exn :=
  ValueError "Model not trained. Call train() first.".

Record TrainingMetrics : Type := {
  train_mse : float;
  test_mse : float;
  train_mae : float;
  test_mae : float;
  train_samples : nat;
  test_samples : nat
}.

Definition default_test_size : Qc := (Qc_of_Z 1 / Qc_of_Z 5)%Qc.

Definition train (test_size : Qc) : M TrainingMetrics :=
  '(X, y) ← prepare_features default_lookback;
  if bool_decide (length X < 50) then raise InsufficientDataError_train
  else
    '(X_train, X_test, y_train, y_test) ← lift (train_test_split X y test_size);
    let st := scaler_fit X_train in
    set_scaler st;;
    let X_train_scaled := scaler_transform st X_train in
    let X_test_scaled := scaler_transform st X_test in
    let m := forest_fit X_train_scaled y_train in
    set_model m;;
    let train_pred := forest_predict m X_train_scaled in
    let test_pred := forest_predict m X_test_scaled in
    mret {| train_mse := mean_squared_error y_train train_pred;
            test_mse := mean_squared_error y_test test_pred;
            train_mae := mean_absolute_error y_train train_pred;
            test_mae := mean_absolute_error y_test test_pred;
            train_samples := length X_train;
            test_samples := length X_test |}.

Record Prediction : Type := {
  current_price : float;
  predicted_change_pct : float;
  predicted_price : float;
  confidence : float;
  direction : string
}.

Definition predict (days_ahead : nat) : M Prediction :=
  p ← get_self;
  match model p with
  | None => raise NotTrainedError
  | Some m =>
      '(X, _) ← prepare_features default_lookback;
      if bool_decide (length X = 0) then raise InsufficientDataError_predict
      else
        let latest_features := drop (length X - 1) X in
        p ← get_self;
        st ← from_option mret (raise NotFittedError) (scaler p);
        let latest_features_scaled := scaler_transform st latest_features in
        prediction ← lift (py_index (forest_predict m latest_features_scaled) 0);
        let feature_importance := Fin <$> feature_importances_ m in
        let conf := fmul (np_mean feature_importance) (of_Z 100) in
        price ← (closes ← read "Close"; lift (py_index closes (-1)));
        let predicted := fmul price (fadd (of_Z 1) prediction) in
        mret {| current_price := price;
                predicted_change_pct := fmul prediction (of_Z 100);
                predicted_price := predicted;
                confidence := py_min conf (of_Z 95);
                direction := if fgt prediction (of_Z 0) then "up" else "down" |}
  end.

(** The predictor and the frame once [prepare_features] has run. *)
Definition after_prepare (p : StockPredictor) (d : DataFrame) : world :=
  {| self := prepared p; data := with_indicators d |}.

(** What a caller sees of one call on a predictor and a frame. *)
Definition call {A} (m : M A) (p : StockPredictor) (d : DataFrame)
  : outcome A * world :=
  m {| self := p; data := d |}.

(** The predictors a caller can hold: a fresh one, and whatever the public
    methods leave behind on any frame.  The flag records whether some
    [train] has returned normally. *)
Inductive reachable : bool → StockPredictor → Prop :=
| reach_init : reachable false init
| reach_prepare_features b p d lookback_days :
    reachable b p →
    reachable b (self (call (prepare_features lookback_days) p d).2)
| reach_train b p d test_size :
    reachable b p →
    reachable (b || is_ok (call (train test_size) p d).1)
              (self (call (train test_size) p d).2)
| reach_predict b p d days_ahead :
    reachable b p →
    reachable b (self (call (predict days_ahead) p d).2).


(** The names [get_feature_importance] gives the features: three per
    column. *)
Definition feature_names (cols : list string) : list string :=
  cols ≫= λ col, [col +:+ "_mean"; col +:+ "_std"; col +:+ "_current"].

(** [d[k] = v] on a dict kept in insertion order: a known key keeps its
    place and takes the new value, a new key goes to the end. *)
Fixpoint dict_set {V} (k : string) (v : V) (d : list (string * V))
  : list (string * V) :=
  match d with
  | [] => [(k, v)]
  | (k', v') :: rest =>
      if decide (k = k') then (k, v) :: rest else (k', v') :: dict_set k v rest
  end.

Definition importance_dict (names : list string) (importances : list Qc)
  : list (string * Qc) :=
  foldl (λ d kv, dict_set kv.1 kv.2 d) [] (zip names importances).

(** [sorted(items, key=lambda x: x[1], reverse=True)]: descending by score,
    items of equal score staying in their order. *)
Fixpoint insert_desc (x : string * Qc) (sorted : list (string * Qc))
  : list (string * Qc) :=
  match sorted with
  | [] => [x]
  | y :: rest =>
      if Qc_ltb x.2 y.2 then y :: insert_desc x rest else x :: y :: rest
  end.

Definition sorted_desc (items : list (string * Qc)) : list (string * Qc) :=
  foldr insert_desc [] items.

Definition get_feature_importance (p : StockPredictor)
  : option (list (string * Qc)) :=
  match model p with
  | None => None
  | Some m =>
      Some (sorted_desc (importance_dict (feature_names (feature_columns p))
                                         (feature_importances_ m)))
  end.

End Predictor.
End Predictor.
Export Predictor.

(* ===================================================================== *)
(** * stock_bro.api.routes: the prediction route *)
(* ===================================================================== *)

Module Routes.
Section Routes.
Context `{Sqrt, Scaler, Regressor}.

(** What the route takes from outside the repository's own logic: the
    frame the fetcher hands back for a symbol, a period and an interval,
    [str.upper], and the text [str] gives for library exceptions and for an
    HTTP exception. *)
Variable get_stock_data : string → string → string → option DataFrame.
Variable upper : string → string.
Variable str_library : exn → string.
Variable str_http : nat → string → string.

(** What can be raised inside the route: an exception of the predictor or
    of a library, or an [HTTPException] of the route itself. *)
Inductive raised : Type :=
| Python (e : exn)
| HTTPException (status_code : nat) (detail : string).

(** [str(e)]. *)
Definition str_raised (r : raised) : string :=
  match r with
  | Python (ValueError msg) => msg
  | Python e => str_library e
  | HTTPException status_code detail => str_http status_code detail
  end.

(** [except ValueError]: scikit-learn's [NotFittedError] is a [ValueError]
    too; an [HTTPException] is not. *)
Definition is_ValueError (r : raised) : bool :=
  match r with
  | Python (ValueError _) | Python NotFittedError => true
  | _ => false
  end.

(** How a request ends: with the returned body, or with the HTTP exception
    that leaves the route. *)
Inductive response (A : Type) : Type :=
| Returned (body : A)
| Failed (status_code : nat) (detail : string).
Global Arguments Returned {A} body.
Global Arguments Failed {A} status_code detail.

Record PredictionBody : Type := {
  symbol : string;
  prediction : Prediction;
  training_metrics : TrainingMetrics;
  disclaimer : string
}.

Definition insufficient_detail (points : nat) : string :=
  "Insufficient data for prediction. Need at least 100 data points, got "
    +:+ pretty points.

Definition disclaimer_text : string :=
  "This is a prediction based on historical data and should not be considered as financial advice.".

(** The body of the [try] block, run on the shared predictor. *)
Definition predict_stock_price_try (request_symbol : string) (days_ahead : nat)
    (predictor : StockPredictor) : (PredictionBody + raised) * StockPredictor :=
  match get_stock_data (upper request_symbol) "2y" "1d" with
  | None => (inr (HTTPException 400 (insufficient_detail 0)), predictor)
  | Some frame =>
      if bool_decide (len frame < 100)
      then (inr (HTTPException 400 (insufficient_detail (len frame))), predictor)
      else
        match call (train default_test_size) predictor frame with
        | (Raise e, w) => (inr (Python e), self w)
        | (Ok metrics, w) =>
            match call (predict days_ahead) (self w) (data w) with
            | (Raise e, w') => (inr (Python e), self w')
            | (Ok p, w') =>
                (inl {| symbol := upper request_symbol;
                        prediction := p;
                        training_metrics := metrics;
                        disclaimer := disclaimer_text |},
                 self w')
            end
        end
  end.

(** The route with its two handlers: [except ValueError] answers 400, the
    following [except Exception] answers 500. *)
Definition predict_stock_price (request_symbol : string) (days_ahead : nat)
    (predictor : StockPredictor) : response PredictionBody * StockPredictor :=
  match predict_stock_price_try request_symbol days_ahead predictor with
  | (inl body, predictor') => (Returned body, predictor')
  | (inr e, predictor') =>
      if is_ValueError e then (Failed 400 (str_raised e), predictor')
      else (Failed 500 (str_raised e), predictor')
  end.

End Routes.
End Routes.
Export Routes.

(* ===================================================================== *)
(** * Concrete instances and sample series *)
(* ===================================================================== *)

Module Samples.

(** A square root rounded down on a grid: [sqrt(a/b) ~ isqrt(a*b)/b]. *)
Definition grid_sqrt (q : Qc) : Qc :=
  Q2Qc (Z.sqrt (Qnum q * Z.pos (Qden q)) # Qden q).

#[export] Instance grid_Sqrt : Sqrt.
Proof.
  refine {| qsqrt := grid_sqrt |}.
  intros q. unfold grid_sqrt, Qcle.
  change (0 <= Qred (Z.sqrt (Qnum q * Z.pos (Qden q)) # Qden q))%Q.
  rewrite Qred_correct. unfold Qle. cbn [Qnum Qden].
  rewrite Z.mul_0_l, Z.mul_1_r. apply Z.sqrt_nonneg.
Defined.

(** A scaler that centres every feature on its training mean. *)
Definition column_means (X : Matrix) : list float :=
  (λ j, np_mean (omap (λ row, row !! j) X)) <$> seq 0 (length (default [] (head X))).

#[export] Instance centring_Scaler : Scaler := {|
  scaler_state := list float;
  scaler_fit := column_means;
  scaler_transform_row := λ st row, zip_with fsub row st
|}.

(** A regressor that answers the mean training target, with the
    importance spread evenly over the 27 features. *)
Definition even_importances : list Qc :=
  replicate 27 (Qc_of_Z 1 / Qc_of_Z 27)%Qc.

#[export] Instance mean_Regressor : Regressor.
Proof.
  refine {| forest := float;
            forest_fit := λ _ y, np_mean y;
            forest_predict_row := λ m _, m;
            feature_importances_ := λ _, even_importances |}.
  - intros _. apply Forall_forall. intros q Hq.
    apply elem_of_replicate in Hq as [-> _]. by vm_compute.
  - intros _. discriminate.
Defined.

(** A flat series, and one whose close cycles over seven levels above 100. *)
Definition flat_frame (n : nat) : DataFrame :=
  {| bars := replicate n {| open := Qc_of_Z 100; high := Qc_of_Z 101;
                            low := Qc_of_Z 99; close := Qc_of_Z 100;
                            volume := 1000%N |};
     derived := ∅ |}.

Definition sample_bar (i : nat) : Bar :=
  let c := Qc_of_Z (100 + Z.of_nat ((i * i + 3 * i) `mod` 7)) in
  {| open := c; high := (c + 1)%Qc; low := (c - 1)%Qc; close := c;
     volume := N.of_nat (1000 + i) |}.

Definition frame_of_closes (closes : list Z) : DataFrame :=
  {| bars := (λ c, {| open := Qc_of_Z c; high := Qc_of_Z c; low := Qc_of_Z c;
                      close := Qc_of_Z c; volume := 1000%N |}) <$> closes;
     derived := ∅ |}.

Definition sample_frame (n : nat) : DataFrame :=
  {| bars := sample_bar <$> seq 0 n; derived := ∅ |}.

End Samples.
Import Samples.

(* ===================================================================== *)
(** * Facts about the number model *)
(* ===================================================================== *)

Module FloatFacts.

Lemma Qc_ltb_lt (x y : Qc) : Qc_ltb x y = true ↔ (x < y)%Qc.
Proof.
  unfold Qc_ltb. rewrite Qclt_alt.
  destruct (x ?= y)%Qc; split; intros; congruence.
Qed.

Lemma Qc_eqb_eq (x y : Qc) : Qc_eqb x y = true ↔ x = y.
Proof.
  unfold Qc_eqb. rewrite Qceq_alt.
  destruct (x ?= y)%Qc; split; intros; congruence.
Qed.

Lemma Qc_leb_le (x y : Qc) : Qc_leb x y = true ↔ (x ≤ y)%Qc.
Proof.
  unfold Qc_leb. rewrite Qcle_alt.
  destruct (x ?= y)%Qc; split; intros; congruence.
Qed.

Lemma Qc_ltb_ge (x y : Qc) : Qc_ltb x y = false ↔ (y ≤ x)%Qc.
Proof.
  rewrite <- not_true_iff_false, Qc_ltb_lt. split.
  - apply Qcnot_lt_le.
  - intros Hle Hlt. by apply (Qcle_not_lt _ _ Hle).
Qed.

Lemma Qc_eqb_neq (x y : Qc) : Qc_eqb x y = false ↔ x ≠ y.
Proof. by rewrite <- not_true_iff_false, Qc_eqb_eq. Qed.

Lemma fle_Fin (x y : Qc) : fle (Fin x) (Fin y) = true ↔ (x ≤ y)%Qc.
Proof.
  unfold fle. cbn [flt feq]. rewrite orb_true_iff, Qc_ltb_lt, Qc_eqb_eq. split.
  - intros [Hlt | ->]; [by apply Qclt_le_weak | apply Qcle_refl].
  - intros Hle. destruct (Qcle_lt_or_eq _ _ Hle); auto.
Qed.

Lemma fge_Fin (x y : Qc) : fge (Fin x) (Fin y) = true ↔ (y ≤ x)%Qc.
Proof. apply fle_Fin. Qed.

(** Moving between the canonical rationals and the plain ones, where the
    linear arithmetic procedures work. *)
Lemma Qc_le_Q (x y : Qc) : (x ≤ y)%Qc ↔ (this x <= this y)%Q.
Proof. reflexivity. Qed.

Lemma Qc_lt_Q (x y : Qc) : (x < y)%Qc ↔ (this x < this y)%Q.
Proof. reflexivity. Qed.

Lemma Qc_eq_Q (x y : Qc) : x = y ↔ (this x == this y)%Q.
Proof. split; [by intros -> | apply Qc_is_canon]. Qed.

Lemma this_plus (x y : Qc) : (this (x + y)%Qc == this x + this y)%Q.
Proof. apply Qred_correct. Qed.

Lemma this_mult (x y : Qc) : (this (x * y)%Qc == this x * this y)%Q.
Proof. apply Qred_correct. Qed.

Lemma this_opp (x : Qc) : (this (- x)%Qc == - this x)%Q.
Proof. apply Qred_correct. Qed.

Lemma this_minus (x y : Qc) : (this (x - y)%Qc == this x - this y)%Q.
Proof. unfold Qcminus. rewrite this_plus, this_opp. reflexivity. Qed.

Lemma this_inv (x : Qc) : (this (/ x)%Qc == / this x)%Q.
Proof. apply Qred_correct. Qed.

Lemma this_div (x y : Qc) : (this (x / y)%Qc == this x / this y)%Q.
Proof. unfold Qcdiv. rewrite this_mult, this_inv. reflexivity. Qed.

Lemma this_of_Z (z : Z) : this (Qc_of_Z z) = inject_Z z.
Proof. reflexivity. Qed.

Lemma this_of_nat (n : nat) : this (Qc_of_nat n) = inject_Z (Z.of_nat n).
Proof. reflexivity. Qed.

Lemma Qc_of_nat_pos (n : nat) : 0 < n → (0 < Qc_of_nat n)%Qc.
Proof.
  intros Hn. apply Qc_lt_Q. rewrite this_of_nat.
  change (this 0%Qc) with (inject_Z 0). rewrite <- Zlt_Qlt. lia.
Qed.

Lemma Qc_of_nat_ne_0 (n : nat) : 0 < n → Qc_eqb (Qc_of_nat n) 0 = false.
Proof.
  intros Hn. apply Qc_eqb_neq. intros Heq.
  pose proof (Qc_of_nat_pos n Hn) as Hpos. rewrite Heq in Hpos.
  by apply (Qclt_not_eq _ _ Hpos).
Qed.

Lemma Qc_div_nonneg (x y : Qc) : (0 ≤ x)%Qc → (0 < y)%Qc → (0 ≤ x / y)%Qc.
Proof.
  rewrite !Qc_le_Q, Qc_lt_Q, this_div. change (this 0%Qc) with 0%Q.
  intros Hx Hy. apply Qle_shift_div_l; [done | lra].
Qed.

End FloatFacts.
Import FloatFacts.

(* ===================================================================== *)
(** * Facts about Python indexing *)
(* ===================================================================== *)

Module PythonFacts.

Lemma py_index_last {A} (xs : list A) :
  py_index xs (-1) =
    match last xs with Some x => Ok x | None => Raise IndexError end.
Proof.
  unfold py_index. cbn [Z.ltb Z.compare]. rewrite last_lookup.
  destruct xs as [|x xs]; [done|].
  cbn [length]. replace (Z.of_nat (S (length xs)) + -1)%Z
    with (Z.of_nat (length xs)) by lia.
  destruct (Z.ltb_spec (Z.of_nat (length xs)) 0); [lia|].
  by rewrite Nat2Z.id.
Qed.

Lemma py_index_nat {A} (xs : list A) (k : nat) :
  py_index xs (Z.of_nat k) =
    match xs !! k with Some x => Ok x | None => Raise IndexError end.
Proof.
  unfold py_index.
  destruct (Z.ltb_spec (Z.of_nat k) 0); [lia|].
  destruct (Z.ltb_spec (Z.of_nat k) 0); [lia|]. by rewrite Nat2Z.id.
Qed.

(** [xs[-k]]: the position [len - k] when there are at least [k] elements;
    [xs[-0]] is [xs[0]]. *)
Lemma py_index_from_end {A} (xs : list A) (k : nat) :
  py_index xs (- Z.of_nat k) =
    if decide (k ≤ length xs)
    then match xs !! (if decide (k = 0) then 0 else length xs - k) with
         | Some x => Ok x | None => Raise IndexError end
    else Raise IndexError.
Proof.
  destruct k as [|k].
  - change (- Z.of_nat 0)%Z with (Z.of_nat 0). rewrite py_index_nat.
    by rewrite decide_True by lia.
  - unfold py_index. destruct (Z.ltb_spec (- Z.of_nat (S k)) 0); [|lia].
    rewrite (decide_False (P := S k = 0)) by lia. case_decide.
    + destruct (Z.ltb_spec (Z.of_nat (length xs) + - Z.of_nat (S k)) 0); [lia|].
      by replace (Z.to_nat (Z.of_nat (length xs) + - Z.of_nat (S k)))
        with (length xs - S k) by lia.
    + by destruct (Z.ltb_spec (Z.of_nat (length xs) + - Z.of_nat (S k)) 0); [|lia].
Qed.

End PythonFacts.
Import PythonFacts.

(* ===================================================================== *)
(** * Facts about series and windows *)
(* ===================================================================== *)

Module PandasFacts.

Lemma length_rolling (w : nat) (agg : list Qc → float) (s : Series) :
  length (rolling w agg s) = length s.
Proof. unfold rolling. by rewrite length_fmap, length_seq. Qed.

Lemma rolling_lookup (w : nat) (agg : list Qc → float) (s : Series) (i : nat) :
  i < length s →
  rolling w agg s !! i =
    Some (let obs := observations (window_at w i s) in
          if bool_decide (w ≤ length obs ∧ 0 < length obs) then agg obs else NaN).
Proof.
  intros Hi. unfold rolling. rewrite list_lookup_fmap, lookup_seq_lt by done.
  reflexivity.
Qed.


Lemma length_observations_le (win : list float) :
  length (observations win) ≤ length win.
Proof.
  induction win as [|x win IH]; [done|].
  unfold observations in *. cbn. destruct (prep_value x); cbn; lia.
Qed.





Lemma length_shift1 (s : Series) : length (shift1 s) = length s.
Proof.
  destruct s as [|x s]; [done|]. unfold shift1.
  cbn [length]. rewrite length_take. cbn [length]. lia.
Qed.

Lemma length_diff (s : Series) : length (diff s) = length s.
Proof. unfold diff. rewrite length_zip_with, length_shift1. lia. Qed.

Lemma length_pct_change (s : Series) : length (pct_change s) = length s.
Proof.
  unfold pct_change. rewrite length_fmap, length_zip_with, length_shift1. lia.
Qed.

Lemma length_ewm_loop (f : Qc) (st : ewm_state) (vals : list (option Qc)) :
  length (ewm_loop f st vals) = length vals.
Proof.
  revert st. induction vals as [|v vals IH]; intros st; [done|].
  cbn. by rewrite IH.
Qed.

Lemma length_ewm_mean (span : nat) (s : Series) :
  length (ewm_mean span s) = length s.
Proof.
  unfold ewm_mean. destruct s as [|x s]; [done|].
  cbn. by rewrite length_ewm_loop, length_fmap.
Qed.

Lemma length_rsi_of (gain loss : Series) :
  length (rsi_of gain loss) = length gain `min` length loss.
Proof. unfold rsi_of. by rewrite length_fmap, length_zip_with. Qed.

Lemma length_rsi (w : nat) (s : Series) :
  length (rsi_of (rsi_gain w s) (rsi_loss w s)) = length s.
Proof.
  rewrite length_rsi_of. unfold rsi_gain, rsi_loss, rolling_mean, series_where.
  rewrite !length_rolling, !length_fmap, length_diff. lia.
Qed.

(** The provider's columns are always there, aligned with the bars and
    without gaps. *)
Lemma column_ohlcv (d : DataFrame) (col : string) :
  col ∈ ohlcv →
  ∃ s, column d col = Some s ∧ length s = len d ∧ finite_series s.
Proof.
  unfold ohlcv. rewrite !elem_of_cons, elem_of_nil.
  intros [-> | [-> | [-> | [-> | [-> | []]]]]]; eexists;
    (split; [reflexivity|]);
    (split; [by rewrite length_fmap|]);
    apply Forall_fmap, Forall_true; intros b; by eexists.
Qed.

Lemma column_Close (d : DataFrame) :
  column d "Close" = Some ((λ b, Fin (close b)) <$> bars d).
Proof. reflexivity. Qed.

Lemma Qc_of_Z_0 : Qc_of_Z 0 = 0%Qc.
Proof. by apply Qc_is_canon. Qed.

Lemma Qc_foldl_nonneg (xs : list Qc) (a : Qc) :
  (0 ≤ a)%Qc → Forall (λ q, (0 ≤ q)%Qc) xs → (0 ≤ foldl Qcplus a xs)%Qc.
Proof.
  intros Ha Hxs. revert a Ha.
  induction Hxs as [|x xs Hx _ IH]; intros a Ha; [done|].
  cbn. apply IH. by apply Qcplus_nonneg_nonneg.
Qed.

Lemma Qc_mean_nonneg (xs : list Qc) :
  Forall (λ q, (0 ≤ q)%Qc) xs → (0 ≤ Qc_mean xs)%Qc.
Proof.
  intros Hxs. unfold Qc_mean. destruct xs as [|x xs]; [by vm_compute|].
  apply Qc_div_nonneg.
  - by apply Qc_foldl_nonneg.
  - apply Qc_of_nat_pos. cbn. lia.
Qed.

End PandasFacts.
Import PandasFacts.

(* ===================================================================== *)
(** * The indicator engine *)
(* ===================================================================== *)

Module TechnicalAnalyzerSpec.



(** ** RSI *)

Lemma observations_nonneg (win : list float) :
  nonneg_series win → Forall (λ q, (0 ≤ q)%Qc) (observations win).
Proof.
  induction 1 as [|x win Hx _ IH]; [constructor|].
  unfold observations in *. cbn. destruct x; cbn; try done.
  constructor; [by apply Hx | done].
Qed.

Lemma rolling_mean_nonneg (w : nat) (s : Series) :
  nonneg_series s → nonneg_series (rolling_mean w s).
Proof.
  intros Hs. apply Forall_lookup. intros i x Hx q ->.
  pose proof (lookup_lt_Some _ _ _ Hx) as Hi.
  unfold rolling_mean in *. rewrite length_rolling in Hi.
  rewrite rolling_lookup in Hx by done. cbn zeta in Hx.
  case_bool_decide; [|done]. injection Hx as <-.
  apply Qc_mean_nonneg, observations_nonneg.
  unfold window_at. by apply Forall_drop, Forall_take.
Qed.

Lemma gains_nonneg (delta : Series) :
  nonneg_series (series_where (λ x, fgt x (of_Z 0)) (of_Z 0) delta).
Proof.
  apply Forall_fmap, Forall_true. intros x q. unfold compose.
  destruct (fgt x (of_Z 0)) eqn:Hgt.
  - intros ->. apply Qc_ltb_lt in Hgt. by apply Qclt_le_weak.
  - intros [= <-]. done.
Qed.

Lemma losses_nonneg (delta : Series) :
  nonneg_series (fneg <$> series_where (λ x, flt x (of_Z 0)) (of_Z 0) delta).
Proof.
  apply Forall_fmap, Forall_fmap, Forall_true. intros x q. unfold compose.
  destruct (flt x (of_Z 0)) eqn:Hlt.
  - destruct x as [| | |p]; try done. intros [= <-].
    apply Qc_ltb_lt in Hlt. unfold Qclt in Hlt. unfold Qcle.
    rewrite this_opp. change (this (Qc_of_Z 0)) with 0%Q in Hlt.
    change (this 0%Qc) with 0%Q. lra.
  - intros [= <-]. done.
Qed.

(** The RSI of an average gain and an average loss that are undefined or
    non-negative is undefined or within [[0, 100]]. *)
Lemma rsi_value_range (g l : float) :
  (∀ p, g = Fin p → (0 ≤ p)%Qc) → (∀ p, l = Fin p → (0 ≤ p)%Qc) →
  isnan (rsi_from_rs (fdiv g l)) = false →
  ∃ q, rsi_from_rs (fdiv g l) = Fin q ∧ (0 ≤ q)%Qc ∧ (q ≤ Qc_of_Z 100)%Qc.
Proof.
  intros Hg Hl.
  destruct g as [| | |g], l as [| | |l]; try (cbn; done);
    try (cbn; try destruct (Qc_ltb l 0); intros _; eexists;
         (split; [reflexivity | split; by vm_compute])).
  specialize (Hg g eq_refl). specialize (Hl l eq_refl).
  cbn [fdiv]. destruct (Qc_eqb l 0) eqn:Hl0.
  - destruct (g ?= 0)%Qc eqn:Hcmp; [done | |].
    + apply Qclt_alt in Hcmp. by destruct (Qcle_not_lt _ _ Hg).
    + intros _. eexists. split; [reflexivity|]. split; by vm_compute.
  - intros _. apply Qc_eqb_neq in Hl0.
    assert (0 < l)%Qc as Hlpos.
    { destruct (Qcle_lt_or_eq _ _ Hl); [done | congruence]. }
    pose proof (Qc_div_nonneg g l Hg Hlpos) as Hrs.
    assert (Qc_eqb (Qc_of_Z 1 + g / l) 0 = false) as Hne.
    { apply Qc_eqb_neq. intros Heq. apply Qc_eq_Q in Heq.
      rewrite this_plus in Heq. unfold Qcle in Hrs.
      change (this (Qc_of_Z 1)) with 1%Q in Heq.
      change (this 0%Qc) with 0%Q in *. lra. }
    unfold rsi_from_rs. cbn [fadd of_Z fdiv]. rewrite Hne. cbn [fsub fneg fadd].
    eexists. split; [reflexivity|].
    unfold Qcle in *. rewrite this_plus, this_opp, this_div, this_plus.
    change (this (Qc_of_Z 1)) with 1%Q. change (this (Qc_of_Z 100)) with 100%Q.
    change (this 0%Qc) with 0%Q in *.
    set (rs := this (g / l)%Qc) in *.
    assert (0 <= 100 / (1 + rs))%Q by (apply Qle_shift_div_l; lra).
    assert (100 / (1 + rs) <= 100)%Q by (apply Qle_shift_div_r; lra).
    lra.
Qed.

Lemma rsi_of_lookup (gain loss : Series) (i : nat) (x : float) :
  rsi_of gain loss !! i = Some x →
  ∃ g l, gain !! i = Some g ∧ loss !! i = Some l ∧ x = rsi_from_rs (fdiv g l).
Proof.
  unfold rsi_of. rewrite list_lookup_fmap, fmap_Some.
  intros (rs & Hrs & ->). apply lookup_zip_with_Some in Hrs as (g & l & -> & Hg & Hl).
  by exists g, l.
Qed.

Lemma rsi_of_lookup_2 (gain loss : Series) (i : nat) (g l : float) :
  gain !! i = Some g → loss !! i = Some l →
  rsi_of gain loss !! i = Some (rsi_from_rs (fdiv g l)).
Proof.
  intros Hg Hl. unfold rsi_of. rewrite list_lookup_fmap.
  assert (zip_with fdiv gain loss !! i = Some (fdiv g l)) as ->; [|done].
  apply lookup_zip_with_Some. by exists g, l.
Qed.

(** C6.  Every defined value of the RSI of a provider column lies in
    [[0, 100]]; where the average loss is zero the RSI is 100 if the average
    gain is positive and undefined if the average gain is zero too. *)
Theorem rsi_bounded (data : DataFrame) (window : nat) (col : string) :
  col ∈ ohlcv →
  ∃ s rsi,
    column data col = Some s ∧
    calculate_rsi data window col = Ok rsi ∧
    length rsi = len data ∧
    (∀ i x, rsi !! i = Some x → isnan x = false →
            ∃ q, x = Fin q ∧ (0 ≤ q)%Qc ∧ (q ≤ Qc_of_Z 100)%Qc) ∧
    (∀ i g, rsi_gain window s !! i = Some (Fin g) →
            rsi_loss window s !! i = Some (Fin 0%Qc) →
            (0 < g)%Qc → rsi !! i = Some (of_Z 100)) ∧
    (∀ i, rsi_gain window s !! i = Some (Fin 0%Qc) →
          rsi_loss window s !! i = Some (Fin 0%Qc) →
          rsi !! i = Some NaN).
Proof.
  intros Hcol.
  destruct (column_ohlcv data col Hcol) as (s & Hs & Hlen & _).
  exists s, (rsi_of (rsi_gain window s) (rsi_loss window s)).
  split; [done|]. unfold calculate_rsi, getitem. rewrite Hs.
  split; [done|]. split; [by rewrite length_rsi|].
  split; [|split].
  - intros i x Hx Hnan.
    apply rsi_of_lookup in Hx as (g & l & Hg & Hl & ->).
    apply rsi_value_range; [| |done].
    + intros p ->. unfold rsi_gain in Hg.
      exact (Forall_lookup_1 _ _ _ _
               (rolling_mean_nonneg _ _ (gains_nonneg _)) Hg p eq_refl).
    + intros p ->. unfold rsi_loss in Hl.
      exact (Forall_lookup_1 _ _ _ _
               (rolling_mean_nonneg _ _ (losses_nonneg _)) Hl p eq_refl).
  - intros i g Hg Hl Hpos. rewrite (rsi_of_lookup_2 _ _ _ _ _ Hg Hl).
    f_equal. cbn [fdiv]. change (Qc_eqb 0 0) with true. cbv iota.
    apply Qcgt_alt in Hpos. rewrite Hpos.
    unfold rsi_from_rs, of_Z. cbn. f_equal. by apply Qc_is_canon.
  - intros i Hg Hl. by rewrite (rsi_of_lookup_2 _ _ _ _ _ Hg Hl).
Qed.

Lemma rsi_bounded_witness :
  ∃ s rsi,
    column (frame_of_closes [1; 2; 3; 3; 3; 2]%Z) "Close" = Some s ∧
    calculate_rsi (frame_of_closes [1; 2; 3; 3; 3; 2]%Z) 2 "Close" = Ok rsi ∧
    length rsi = len (frame_of_closes [1; 2; 3; 3; 3; 2]%Z) ∧
    (∀ i x, rsi !! i = Some x → isnan x = false →
            ∃ q, x = Fin q ∧ (0 ≤ q)%Qc ∧ (q ≤ Qc_of_Z 100)%Qc) ∧
    (∀ i g, rsi_gain 2 s !! i = Some (Fin g) →
            rsi_loss 2 s !! i = Some (Fin 0%Qc) →
            (0 < g)%Qc → rsi !! i = Some (of_Z 100)) ∧
    (∀ i, rsi_gain 2 s !! i = Some (Fin 0%Qc) →
          rsi_loss 2 s !! i = Some (Fin 0%Qc) →
          rsi !! i = Some NaN).
Proof. apply rsi_bounded. repeat constructor. Defined.

(** ** Bollinger bands *)






(** ** Trend *)

Lemma flt_asym (a b : float) : flt a b = true → flt b a = false.
Proof.
  destruct a as [| | |x], b as [| | |y]; try done. cbn.
  rewrite Qc_ltb_lt, Qc_ltb_ge. apply Qclt_le_weak.
Qed.

Lemma classify_cases (a b : float) :
  classify a b ∈ ["bullish"; "bearish"; "neutral"] ∧
  (fgt a b = true → classify a b = "bullish") ∧
  (flt a b = true → classify a b = "bearish") ∧
  (fgt a b = false → flt a b = false → classify a b = "neutral").
Proof.
  unfold classify, fgt.
  destruct (flt b a) eqn:Hgt, (flt a b) eqn:Hlt;
    try (apply flt_asym in Hgt; congruence);
    (split; [set_solver | done]).
Qed.

Lemma fabs_nonneg (q : Qc) : fge (fabs (Fin q)) (of_Z 0) = true.
Proof.
  cbn [fabs]. apply fge_Fin. destruct (Qc_ltb q 0) eqn:Hq.
  - apply Qc_ltb_lt in Hq. unfold Qclt in Hq. unfold Qcle. rewrite this_opp.
    change (this (Qc_of_Z 0)) with 0%Q. change (this 0%Qc) with 0%Q in Hq. lra.
  - by apply Qc_ltb_ge in Hq.
Qed.

Lemma closes_lookup (d : DataFrame) (i : nat) (x : float) :
  ((λ b, Fin (close b)) <$> bars d) !! i = Some x →
  ∃ b, bars d !! i = Some b ∧ x = Fin (close b).
Proof.
  rewrite list_lookup_fmap, fmap_Some. intros (b & Hb & ->). by exists b.
Qed.

(** C8 (amended).  On positive prices, [analyze_trend] fails with an index
    error when the series is empty or has fewer than [window] bars, and for
    a non-empty series of at least [window] bars it returns a trend that is
    one of the three labels, decided by comparing the two moving averages
    at the last bar, with a non-negative strength. *)
Theorem analyze_trend_contract (data : DataFrame) (window : nat) :
  positive_closes data →
  (len data < window ∨ len data = 0 →
   analyze_trend data window = Raise IndexError) ∧
  (1 ≤ len data → window ≤ len data →
   ∃ r, analyze_trend data window = Ok r ∧ trend_result_ok data window r).
Proof.
  intros Hpos. unfold analyze_trend, calculate_sma, getitem.
  rewrite column_Close. cbn [mbind outcome_bind mret outcome_ret].
  set (closes := (λ b, Fin (close b)) <$> bars data).
  assert (length closes = len data) as Hlen by apply length_fmap.
  rewrite !py_index_last, py_index_from_end.
  destruct (last (rolling_mean (window / 2) closes)) as [cs|] eqn:Hcs; cycle 1.
  { apply last_None in Hcs. apply (f_equal length) in Hcs.
    unfold rolling_mean in Hcs. rewrite length_rolling in Hcs. cbn in Hcs.
    split; [done | lia]. }
  destruct (last (rolling_mean window closes)) as [cl|] eqn:Hcl; cycle 1.
  { apply last_None in Hcl. apply (f_equal length) in Hcl.
    unfold rolling_mean in Hcl. rewrite length_rolling in Hcl. cbn in Hcl.
    split; [done | lia]. }
  destruct (last closes) as [c1|] eqn:Hc1; cycle 1.
  { apply last_None in Hc1. apply (f_equal length) in Hc1. cbn in Hc1.
    split; [done | lia]. }
  assert (0 < len data) as Hne.
  { rewrite <- Hlen. destruct closes; [done | cbn; lia]. }
  cbn [mbind outcome_bind]. rewrite Hlen. case_decide as Hw.
  - destruct (closes !! _) as [c0|] eqn:Hc0; cycle 1.
    { apply lookup_ge_None_1 in Hc0. case_decide; lia. }
    split; [lia|]. intros _ _. eexists. split; [reflexivity|].
    destruct (classify_cases cs cl) as (Hin & Hb & Hbe & Hn).
    unfold trend_result_ok. cbn [trend strength sma_short sma_long].
    split; [done|].
    split; [by exists (rolling_mean (window / 2) closes)|].
    split; [by exists (rolling_mean window closes)|].
    do 3 (split; [done|]).
    apply closes_lookup in Hc0 as (b0 & Hb0 & ->).
    rewrite last_lookup in Hc1. apply closes_lookup in Hc1 as (b1 & _ & ->).
    pose proof (Forall_lookup_1 _ _ _ _ Hpos Hb0) as Hb0pos. cbn in Hb0pos.
    cbn [fsub fneg fadd fdiv].
    assert (Qc_eqb (close b0) 0 = false) as ->.
    { apply Qc_eqb_neq. intros Heq. rewrite Heq in Hb0pos.
      by apply (Qclt_not_eq _ _ Hb0pos). }
    apply fabs_nonneg.
  - split; [done | lia].
Qed.

Lemma analyze_trend_contract_witness :
  ∃ r, analyze_trend (frame_of_closes [100; 102; 101; 105]%Z) 3 = Ok r ∧
       trend_result_ok (frame_of_closes [100; 102; 101; 105]%Z) 3 r.
Proof.
  apply (analyze_trend_contract (frame_of_closes [100; 102; 101; 105]%Z) 3).
  - unfold positive_closes. cbn. repeat constructor.
  - vm_compute. lia.
  - vm_compute. lia.
Defined.

(** A series of exactly [window] bars has fewer than [window + 1] bars, yet
    the trend is computed. *)
Lemma analyze_trend_window_bars_returns :
  len (frame_of_closes [1; 2]%Z) < 2 + 1 ∧
  is_ok (analyze_trend (frame_of_closes [1; 2]%Z) 2) = true.
Proof. split; [cbn; lia | reflexivity]. Qed.

End TechnicalAnalyzerSpec.

(* ===================================================================== *)
(** * The feature builder and the predictor *)
(* ===================================================================== *)

Module PredictorSpec.
Section WithLibraries.
Context `{Sqrt, Scaler, Regressor}.

(** ** Running the monad *)

Lemma run_bind {A B} (m : M A) (f : A → M B) (w : world) :
  (m ≫= f) w = match m w with
               | (Ok a, w') => f a w'
               | (Raise e, w') => (Raise e, w')
               end.
Proof. reflexivity. Qed.

Lemma run_assign_from (name src : string) (f : Series → Series)
    (w : world) (s : Series) :
  column (data w) src = Some s →
  assign_from name src f w =
    (Ok (), {| self := self w; data := setitem name (f s) (data w) |}).
Proof.
  intros Hs. unfold assign_from, read, assign, get_data, lift, put_data, getitem.
  rewrite !run_bind. cbn. by rewrite Hs.
Qed.

Lemma run_read (name : string) (w : world) :
  read name w = (getitem (data w) name, w).
Proof. reflexivity. Qed.

Lemma run_assign (name : string) (s : Series) (w : world) :
  assign name s w = (Ok (), {| self := self w; data := setitem name s (data w) |}).
Proof. reflexivity. Qed.

Lemma column_setitem_eq (name : string) (s : Series) (d : DataFrame) :
  name ∉ ohlcv → column (setitem name s d) name = Some s.
Proof.
  unfold ohlcv. rewrite !not_elem_of_cons. intros (? & ? & ? & ? & ? & _).
  unfold column. rewrite !decide_False by done. cbn. apply lookup_insert_eq.
Qed.

Lemma written_not_provider (name : string) :
  name ∈ written_columns → name ∉ ohlcv.
Proof.
  unfold written_columns, ohlcv. rewrite !elem_of_cons, elem_of_nil.
  intros Hw Ho.
  repeat (destruct Hw as [-> | Hw];
          [repeat (destruct Ho as [Ho | Ho]; [discriminate|]); done|]).
  done.
Qed.

(** [prepare_features] in closed form: the indicator columns are written,
    the column list is recorded, and the loop runs over the new frame. *)
Lemma prepare_features_run (lookback_days : nat) (w : world) :
  prepare_features lookback_days w =
    (create_sequences (with_indicators (data w)) indicator_columns lookback_days,
     {| self := prepared (self w); data := with_indicators (data w) |}).
Proof.
  destruct w as [p d]. unfold prepare_features.
  repeat (rewrite run_bind; erewrite run_assign_from by reflexivity;
          cbn [self data bars setitem]).
  rewrite run_bind, run_read. cbn [self data].
  change (getitem ?d "Volume") with (Ok ((λ b, of_Z (Z.of_N (volume b))) <$> bars d)).
  cbn [bars setitem].
  rewrite run_bind, run_read. cbn [self data]. unfold getitem at 1.
  rewrite column_setitem_eq by (by apply written_not_provider; repeat constructor).
  rewrite run_bind, run_assign. cbn [self data].
  repeat (rewrite run_bind; erewrite run_assign_from by reflexivity;
          cbn [self data bars setitem]).
  reflexivity.
Qed.

(** ** The frame after the indicator assignments *)

Lemma column_derived (d : DataFrame) (name : string) :
  name ∉ ohlcv → column d name = derived d !! name.
Proof.
  unfold ohlcv. rewrite !not_elem_of_cons. intros (? & ? & ? & ? & ? & _).
  unfold column. by rewrite !decide_False by done.
Qed.

Lemma with_indicators_written (d : DataFrame) :
  indicators_written d (with_indicators d).
Proof.
  unfold indicators_written, with_indicators, indicator_table.
  cbn [foldl fst snd]. split; [done|]. split.
  - repeat constructor; cbn [fst snd derived setitem];
      rewrite ?lookup_insert_ne by done; apply lookup_insert_eq.
  - intros name Hname. unfold written_columns in Hname.
    rewrite !not_elem_of_cons in Hname. cbn [derived setitem].
    destruct Hname as (? & ? & ? & ? & ? & ? & ? & ? & ? & ? & _).
    by rewrite !lookup_insert_ne by done.
Qed.

Lemma indicator_table_aligned (d : DataFrame) :
  Forall (λ kv, length kv.2 = len d) (indicator_table d).
Proof.
  unfold indicator_table, len.
  repeat constructor; cbn [snd]; unfold rolling_mean, rolling_std;
    rewrite ?length_zip_with, ?length_rolling, ?length_ewm_mean, ?length_rsi,
      ?length_pct_change, ?length_fmap; lia.
Qed.

Lemma indicator_table_names (d : DataFrame) :
  (indicator_table d).*1 = written_columns.
Proof. reflexivity. Qed.

(** Every column the feature loop reads is in the frame, aligned with the
    bars. *)
Lemma indicator_column (d : DataFrame) (col : string) :
  col ∈ indicator_columns →
  ∃ s, column (with_indicators d) col = Some s ∧ length s = len d.
Proof.
  intros Hcol.
  assert (col ∈ written_columns) as Hw.
  { revert Hcol. unfold indicator_columns, written_columns.
    rewrite !elem_of_cons, !elem_of_nil. intuition. }
  rewrite column_derived by by apply written_not_provider.
  rewrite <- (indicator_table_names d) in Hw.
  apply list_elem_of_fmap in Hw as ([name s] & -> & Hin).
  exists s. split.
  - destruct (with_indicators_written d) as (_ & Htab & _).
    by apply (proj1 (Forall_forall _ _) Htab (name, s)).
  - by apply (proj1 (Forall_forall _ _) (indicator_table_aligned d) (name, s)).
Qed.

(** ** The feature loop *)

Lemma mapM_outcome {A B} (f : A → outcome B) (P : A → B → Prop) (l : list A) :
  (∀ x, x ∈ l → ∃ y, f x = Ok y ∧ P x y) →
  ∃ ys, mapM f l = Ok ys ∧ Forall2 P l ys.
Proof.
  induction l as [|x l IH]; intros Hf.
  - exists []. by split; [|constructor].
  - destruct (Hf x) as (y & Hy & HP); [by left|].
    destruct IH as (ys & Hys & HPs); [intros z Hz; apply Hf; by right|].
    exists (y :: ys). cbn. rewrite Hy. cbn. rewrite Hys. cbn.
    by split; [|constructor].
Qed.

Lemma length_concat_triples (ts : list (list float)) :
  Forall (λ t, length t = 3) ts → length (List.concat ts) = 3 * length ts.
Proof.
  induction 1 as [|t ts Ht _ IH]; [done|].
  cbn. rewrite length_app, Ht, IH. lia.
Qed.

Lemma length_py_slice {A} (xs : list A) (a b : nat) :
  b ≤ length xs → length (py_slice xs a b) = b - a.
Proof. intros Hb. unfold py_slice. rewrite length_drop, length_take. lia. Qed.

Lemma column_features_ok (d : DataFrame) (lookback_days i : nat)
    (col : string) (s : Series) :
  column d col = Some s → 1 ≤ lookback_days → lookback_days ≤ i → i ≤ length s →
  ∃ triple, column_features d lookback_days i col = Ok triple ∧
            is_feature_triple d lookback_days i col triple ∧
            length triple = 3.
Proof.
  intros Hs Hlb Hi Hlen. unfold column_features, has_column, getitem.
  rewrite Hs. rewrite bool_decide_eq_true_2 by by eexists.
  cbn [mbind outcome_bind]. rewrite py_index_last.
  destruct (last (py_slice s (i - lookback_days) i)) as [latest|] eqn:Hlast.
  - eexists. split; [reflexivity|]. split; [|done].
    by exists s, latest.
  - apply last_None in Hlast. apply (f_equal length) in Hlast.
    rewrite length_py_slice in Hlast by done. cbn in Hlast. lia.
Qed.

Lemma feature_row_ok (d : DataFrame) (lookback_days i : nat) :
  1 ≤ lookback_days → lookback_days ≤ i → i ≤ len d →
  ∃ row, feature_row (with_indicators d) indicator_columns lookback_days i = Ok row ∧
         is_feature_row (with_indicators d) lookback_days i row ∧
         length row = 27.
Proof.
  intros Hlb Hi Hlen. unfold feature_row.
  destruct (mapM_outcome (column_features (with_indicators d) lookback_days i)
              (λ col t, is_feature_triple (with_indicators d) lookback_days i col t ∧
                        length t = 3) indicator_columns) as (ts & Hts & HP).
  { intros col Hcol. destruct (indicator_column d col Hcol) as (s & Hs & Hsl).
    destruct (column_features_ok _ lookback_days i col s Hs) as (t & ? & ? & ?);
      try done; [lia | by exists t]. }
  rewrite Hts. eexists. split; [reflexivity|]. split.
  - exists ts. split; [|done]. eapply Forall2_impl; [exact HP|]. by intros ?? [].
  - rewrite length_concat_triples.
    + apply Forall2_length in HP. rewrite <- HP. reflexivity.
    + apply Forall2_Forall_r with (P := λ _ t, length t = 3) (l := indicator_columns).
      * eapply Forall2_impl; [exact HP|]. by intros ?? [].
      * by apply Forall_true.
Qed.

Lemma target_ok (d : DataFrame) (i : nat) :
  i + 1 < len d →
  ∃ t, target (with_indicators d) i = Ok t ∧ is_target d i t.
Proof.
  intros Hi. unfold target, getitem. rewrite column_Close.
  cbn [mbind outcome_bind]. rewrite !py_index_nat, !list_lookup_fmap.
  change (bars (with_indicators d)) with (bars d).
  destruct (lookup_lt_is_Some_2 (bars d) i) as [b0 Hb0]; [unfold len in Hi; lia|].
  destruct (lookup_lt_is_Some_2 (bars d) (i + 1)) as [b1 Hb1]; [done|].
  rewrite Hb0, Hb1. cbn. eexists. split; [reflexivity|]. by exists b0, b1.
Qed.

(** The loop visits the positions [lookback_days .. len - 2] in order and
    yields one row and one target for each. *)
Lemma create_sequences_ok (d : DataFrame) (lookback_days : nat) :
  1 ≤ lookback_days →
  ∃ X y,
    create_sequences (with_indicators d) indicator_columns lookback_days = Ok (X, y) ∧
    length X = len d - 1 - lookback_days ∧
    length y = len d - 1 - lookback_days ∧
    ∀ i, lookback_days ≤ i → i + 1 < len d →
         ∃ row t, X !! (i - lookback_days) = Some row ∧
                  y !! (i - lookback_days) = Some t ∧
                  length row = 27 ∧
                  is_feature_row (with_indicators d) lookback_days i row ∧
                  is_target d i t.
Proof.
  intros Hlb. unfold create_sequences.
  change (len (with_indicators d)) with (len d).
  destruct (mapM_outcome
              (λ i, row ← feature_row (with_indicators d) indicator_columns lookback_days i;
                    t ← target (with_indicators d) i; mret (row, t))
              (λ i rt, length rt.1 = 27 ∧
                       is_feature_row (with_indicators d) lookback_days i rt.1 ∧
                       is_target d i rt.2)
              (range lookback_days (len d - 1))) as (pairs & Hpairs & HP).
  { intros i Hi. unfold range in Hi. apply elem_of_seq in Hi.
    destruct (feature_row_ok d lookback_days i) as (row & Hrow & ? & ?);
      [lia.. |].
    destruct (target_ok d i) as (t & Ht & ?); [lia|].
    exists (row, t). rewrite Hrow. cbn [mbind outcome_bind]. rewrite Ht. by cbn. }
  rewrite Hpairs. cbn [mbind outcome_bind mret outcome_ret].
  exists (pairs.*1), (pairs.*2). split; [done|].
  pose proof (Forall2_length _ _ _ HP) as Hlen.
  unfold range in Hlen. rewrite length_seq in Hlen.
  rewrite !length_fmap. split; [lia|]. split; [lia|].
  intros i Hi1 Hi2.
  destruct (Forall2_lookup_l _ _ _ (i - lookback_days) i HP)
    as ([row t] & Hrt & Hlen27 & Hrow & Htar).
  { unfold range. apply lookup_seq. lia. }
  exists row, t. rewrite !list_lookup_fmap, Hrt. done.
Qed.

(** ** The ordered split *)

Lemma safe_indexing_seq {A} (xs : list A) (a m : nat) :
  safe_indexing xs (seq a m) = take m (drop a xs).
Proof.
  unfold safe_indexing. revert a. induction m as [|m IH]; intros a.
  - by rewrite take_0.
  - cbn [seq omap list_omap]. rewrite IH.
    destruct (xs !! a) as [x|] eqn:Hx.
    + by rewrite (drop_S _ _ _ Hx).
    + apply lookup_ge_None_1 in Hx.
      rewrite !drop_ge by lia. by rewrite !take_nil.
Qed.

Lemma Qfloor_unique (x : Q) (z : Z) :
  (inject_Z z <= x)%Q → (x < inject_Z (z + 1))%Q → Qfloor x = z.
Proof.
  intros Hle Hlt.
  pose proof (Qfloor_le x) as Hf1. pose proof (Qlt_floor x) as Hf2.
  assert (Qfloor x < z + 1)%Z by (rewrite Zlt_Qlt; lra).
  assert (z < Qfloor x + 1)%Z by (rewrite Zlt_Qlt; lra).
  lia.
Qed.

(** Rounding the test part up is rounding the train part down. *)
Lemma floor_complement (t : Q) (n : Z) :
  Qfloor ((1 - t) * inject_Z n) = (n - Qceiling (t * inject_Z n))%Z.
Proof.
  apply Qfloor_unique.
  - pose proof (Qceiling_lt (t * inject_Z n)) as Hc.
    pose proof (Qle_ceiling (t * inject_Z n)) as Hc'.
    unfold Z.sub. rewrite inject_Z_plus, inject_Z_opp. lra.
  - pose proof (Qceiling_lt (t * inject_Z n)) as Hc.
    replace (n - Qceiling (t * inject_Z n) + 1)%Z
      with (n + - (Qceiling (t * inject_Z n) - 1))%Z by lia.
    rewrite inject_Z_plus, inject_Z_opp. lra.
Qed.

Lemma validate_shuffle_split_ok (n : nat) (t : Qc) (n_train n_test : nat) :
  validate_shuffle_split n t = Ok (n_train, n_test) →
  n_train = spec_n_train n t ∧ n_train + n_test = n ∧ 0 < n_train.
Proof.
  unfold validate_shuffle_split.
  set (c := Qceiling (this (t * Qc_of_nat n)%Qc)).
  destruct (Qc_leb t 0 || Qc_leb 1 t) eqn:Ht; [done|].
  apply orb_false_elim in Ht as [Ht0 Ht1].
  case_bool_decide as Hz; [done|]. intros [= <- <-].
  assert (0 <= this t)%Q as Htpos.
  { destruct (Qc_leb t 0) eqn:E; [done|].
    apply not_true_iff_false in E. rewrite Qc_leb_le in E.
    apply Qcnot_le_lt, Qclt_le_weak in E. exact E. }
  assert (0 <= c)%Z as Hc.
  { change 0%Z with (Qceiling 0). apply Qceiling_resp_le.
    rewrite this_mult, this_of_nat.
    apply Qmult_le_0_compat; [done|].
    change 0%Q with (inject_Z 0). rewrite <- Zle_Qle. lia. }
  split; [|lia]. unfold spec_n_train.
  assert (Qfloor (this ((1 - t) * Qc_of_nat n)%Qc) = (Z.of_nat n - c)%Z) as ->; [|lia].
  unfold c.
  rewrite (Qceiling_comp _ (this t * inject_Z (Z.of_nat n)))
    by (by rewrite this_mult, this_of_nat).
  rewrite (Qfloor_comp _ ((1 - this t) * inject_Z (Z.of_nat n)))
    by (by rewrite this_mult, this_minus, this_of_nat).
  apply floor_complement.
Qed.

(** The split keeps the rows in their order: the train part is a prefix,
    the test part is the rest. *)
Lemma train_test_split_ordered {A B} (X : list A) (y : list B) (t : Qc)
    (X_train X_test : list A) (y_train y_test : list B) :
  length X = length y →
  train_test_split X y t = Ok (X_train, X_test, y_train, y_test) →
  let k := spec_n_train (length X) t in
  0 < k < length X + 1 ∧
  X_train = take k X ∧ X_test = drop k X ∧
  y_train = take k y ∧ y_test = drop k y.
Proof.
  intros Hlen. unfold train_test_split.
  destruct (validate_shuffle_split (length X) t) as [[n_train n_test]|] eqn:Hv;
    [|done].
  apply validate_shuffle_split_ok in Hv as (Hk & Hsum & Hpos).
  cbn. intros [= <- <- <- <-]. rewrite !safe_indexing_seq, !drop_0.
  rewrite <- Hk. split; [lia|].
  rewrite !(take_ge (drop _ _)) by (rewrite length_drop; lia). done.
Qed.

(** ** [train] and [predict] in closed form *)

Lemma train_insufficient (t : Qc) (p : StockPredictor) (d : DataFrame)
    (X : Matrix) (y : list float) :
  create_sequences (with_indicators d) indicator_columns default_lookback = Ok (X, y) →
  length X < 50 →
  call (train t) p d = (Raise InsufficientDataError_train, after_prepare p d).
Proof.
  intros Hseq Hlen. unfold call, train.
  rewrite run_bind, prepare_features_run. cbn [self data]. rewrite Hseq.
  by rewrite bool_decide_eq_true_2.
Qed.

Lemma train_split_error (t : Qc) (p : StockPredictor) (d : DataFrame)
    (X : Matrix) (y : list float) (e : exn) :
  create_sequences (with_indicators d) indicator_columns default_lookback = Ok (X, y) →
  50 ≤ length X →
  train_test_split X y t = Raise e →
  call (train t) p d = (Raise e, after_prepare p d).
Proof.
  intros Hseq Hlen Hsplit. unfold call, train.
  rewrite run_bind, prepare_features_run. cbn [self data]. rewrite Hseq.
  rewrite bool_decide_eq_false_2 by lia.
  rewrite run_bind. unfold lift. by rewrite Hsplit.
Qed.

Lemma train_success (t : Qc) (p : StockPredictor) (d : DataFrame)
    (X : Matrix) (y : list float) (X_train X_test : Matrix) (y_train y_test : list float) :
  create_sequences (with_indicators d) indicator_columns default_lookback = Ok (X, y) →
  50 ≤ length X →
  train_test_split X y t = Ok (X_train, X_test, y_train, y_test) →
  let st := scaler_fit X_train in
  let m := forest_fit (scaler_transform st X_train) y_train in
  ∃ metrics,
    call (train t) p d =
      (Ok metrics,
       {| self := {| model := Some m; scaler := Some st;
                     feature_columns := indicator_columns |};
          data := with_indicators d |}) ∧
    train_samples metrics = length X_train ∧
    test_samples metrics = length X_test ∧
    train_mse metrics =
      mean_squared_error y_train (forest_predict m (scaler_transform st X_train)) ∧
    test_mse metrics =
      mean_squared_error y_test (forest_predict m (scaler_transform st X_test)) ∧
    train_mae metrics =
      mean_absolute_error y_train (forest_predict m (scaler_transform st X_train)) ∧
    test_mae metrics =
      mean_absolute_error y_test (forest_predict m (scaler_transform st X_test)).
Proof.
  intros Hseq Hlen Hsplit st m. unfold call, train.
  rewrite run_bind, prepare_features_run. cbn [self data]. rewrite Hseq.
  rewrite bool_decide_eq_false_2 by lia.
  rewrite run_bind. unfold lift. rewrite Hsplit.
  eexists. split; [reflexivity|]. done.
Qed.

Lemma run_lift {A} (o : outcome A) (w : world) : lift o w = (o, w).
Proof. reflexivity. Qed.

Lemma predict_untrained (k : nat) (p : StockPredictor) (d : DataFrame) :
  model p = None →
  call (predict k) p d = (Raise NotTrainedError, {| self := p; data := d |}).
Proof.
  intros Hm. unfold call, predict. rewrite run_bind. cbn [get_self self].
  by rewrite Hm.
Qed.

Lemma drop_last {A} (xs : list A) (x : A) :
  last xs = Some x → drop (length xs - 1) xs = [x].
Proof.
  intros Hx. apply last_Some in Hx as [xs' ->].
  rewrite length_app. cbn [length].
  replace (length xs' + 1 - 1) with (length xs' + 0) by lia.
  by rewrite drop_app_add.
Qed.

Lemma predict_no_rows (k : nat) (p : StockPredictor) (d : DataFrame)
    (m : forest) (y : list float) :
  model p = Some m →
  create_sequences (with_indicators d) indicator_columns default_lookback = Ok ([], y) →
  call (predict k) p d = (Raise InsufficientDataError_predict, after_prepare p d).
Proof.
  intros Hm Hseq. unfold call, predict. rewrite run_bind. cbn [get_self self].
  rewrite Hm, run_bind, prepare_features_run. cbn [self data]. by rewrite Hseq.
Qed.

Lemma predict_trained (k : nat) (p : StockPredictor) (d : DataFrame)
    (m : forest) (st : scaler_state) (X : Matrix) (y : list float)
    (row : list float) (b : Bar) :
  model p = Some m → scaler p = Some st →
  create_sequences (with_indicators d) indicator_columns default_lookback = Ok (X, y) →
  last X = Some row → last (bars d) = Some b →
  let prediction := forest_predict_row m (scaler_transform_row st row) in
  call (predict k) p d =
    (Ok {| current_price := Fin (close b);
           predicted_change_pct := fmul prediction (of_Z 100);
           predicted_price := fmul (Fin (close b)) (fadd (of_Z 1) prediction);
           confidence :=
             py_min (fmul (np_mean (Fin <$> feature_importances_ m)) (of_Z 100))
                    (of_Z 95);
           direction := if fgt prediction (of_Z 0) then "up" else "down" |},
     after_prepare p d).
Proof.
  intros Hm Hst Hseq Hrow Hb prediction.
  unfold call, predict. rewrite run_bind. cbn [get_self self].
  rewrite Hm, run_bind, prepare_features_run. cbn [self data]. rewrite Hseq.
  rewrite bool_decide_eq_false_2 by (by destruct X).
  rewrite (drop_last _ _ Hrow).
  rewrite run_bind. cbn [get_self self prepared scaler].
  rewrite Hst. cbn [from_option]. rewrite !run_bind. cbn [mret M_ret].
  cbn [scaler_transform forest_predict fmap list_fmap].
  cbn [py_index length Z.ltb Z.compare Z.of_nat Z.to_nat lookup list_lookup].
  rewrite run_bind, run_lift. change (Z.to_nat 0) with 0%nat.
  cbn [lookup list_lookup]. rewrite !run_bind, run_read. cbn [data].
  unfold getitem. rewrite column_Close.
  change (bars (with_indicators d)) with (bars d).
  rewrite py_index_last, fmap_last, Hb. reflexivity.
Qed.

(** ** Confidence *)

Lemma np_sum_Fin (xs : list Qc) : np_sum (Fin <$> xs) = Fin (Qc_sum xs).
Proof.
  unfold np_sum, Qc_sum. generalize 0%Qc as a.
  induction xs as [|x xs IH]; intros a; [done|]. cbn. apply IH.
Qed.

Lemma np_mean_Fin (xs : list Qc) :
  xs ≠ [] → np_mean (Fin <$> xs) = Fin (Qc_mean xs).
Proof.
  intros Hne. unfold np_mean, Qc_mean. rewrite np_sum_Fin, length_fmap.
  unfold of_nat, of_Z. cbn [fdiv].
  change (Qc_of_Z (Z.of_nat (length xs))) with (Qc_of_nat (length xs)).
  rewrite Qc_of_nat_ne_0; [done|]. destruct xs; [done | cbn; lia].
Qed.

(** The capped confidence of any forest lies in [[0, 95]]. *)
Lemma confidence_range (m : forest) :
  let conf := py_min (fmul (np_mean (Fin <$> feature_importances_ m)) (of_Z 100))
                     (of_Z 95) in
  fle (of_Z 0) conf = true ∧ fle conf (of_Z 95) = true.
Proof.
  rewrite np_mean_Fin by apply feature_importances_nonempty.
  pose proof (Qc_mean_nonneg _ (feature_importances_nonneg m)) as Hmean.
  set (mu := Qc_mean (feature_importances_ m)) in *.
  cbn [fmul of_Z]. unfold py_min.
  destruct (flt (of_Z 95) (Fin (mu * Qc_of_Z 100))) eqn:Hcap.
  - split; by vm_compute.
  - change (Qc_ltb (Qc_of_Z 95) (mu * Qc_of_Z 100) = false) in Hcap.
    apply Qc_ltb_ge in Hcap. unfold of_Z. rewrite !fle_Fin. split; [|done].
    unfold Qcle in *. rewrite this_mult.
    change (this (Qc_of_Z 0)) with 0%Q. change (this (Qc_of_Z 100)) with 100%Q.
    change (this 0%Qc) with 0%Q in Hmean. lra.
Qed.

(** ** Every way a call can end *)

Lemma derivable_rows_eq (d : DataFrame) :
  derivable_rows d = len d - 1 - default_lookback.
Proof. unfold derivable_rows, range. by rewrite length_seq. Qed.

Lemma sequences_default (d : DataFrame) :
  ∃ X y,
    create_sequences (with_indicators d) indicator_columns default_lookback = Ok (X, y) ∧
    length X = derivable_rows d ∧ length y = derivable_rows d.
Proof.
  destruct (create_sequences_ok d default_lookback) as (X & y & Hseq & HX & Hy & _).
  { unfold default_lookback. lia. }
  exists X, y. by rewrite derivable_rows_eq.
Qed.

Lemma train_cases (t : Qc) (p : StockPredictor) (d : DataFrame) :
  (∃ e, call (train t) p d = (Raise e, after_prepare p d) ∧
        (derivable_rows d < 50 ↔ e = InsufficientDataError_train)) ∨
  (∃ metrics m st,
     50 ≤ derivable_rows d ∧
     call (train t) p d =
       (Ok metrics,
        {| self := {| model := Some m; scaler := Some st;
                      feature_columns := indicator_columns |};
           data := with_indicators d |})).
Proof.
  destruct (sequences_default d) as (X & y & Hseq & HX & Hy).
  destruct (decide (length X < 50)) as [Hlt|Hge].
  - left. exists InsufficientDataError_train.
    rewrite (train_insufficient t p d X y Hseq Hlt). split; [done|].
    split; [done | lia].
  - destruct (train_test_split X y t) as [[[[Xtr Xte] ytr] yte]|e] eqn:Hsplit.
    + right.
      destruct (train_success t p d X y Xtr Xte ytr yte Hseq) as (metrics & Hrun & _);
        [lia | done |].
      eexists _, _, _. split; [lia | exact Hrun].
    + left. exists e. rewrite (train_split_error t p d X y e Hseq); [|lia | done].
      split; [done|]. split; [lia|]. intros ->. exfalso.
      unfold train_test_split, validate_shuffle_split in Hsplit.
      destruct (Qc_leb t 0 || Qc_leb 1 t); [discriminate|].
      by case_bool_decide.
Qed.

Lemma predict_cases (k : nat) (p : StockPredictor) (d : DataFrame) :
  (model p = None ∧
   call (predict k) p d = (Raise NotTrainedError, {| self := p; data := d |})) ∨
  (is_Some (model p) ∧ derivable_rows d = 0 ∧
   call (predict k) p d = (Raise InsufficientDataError_predict, after_prepare p d)) ∨
  (is_Some (model p) ∧ scaler p = None ∧ 1 ≤ derivable_rows d ∧
   call (predict k) p d = (Raise NotFittedError, after_prepare p d)) ∨
  (∃ r, is_Some (model p) ∧ is_Some (scaler p) ∧ 1 ≤ derivable_rows d ∧
        call (predict k) p d = (Ok r, after_prepare p d) ∧
        fle (of_Z 0) (confidence r) = true ∧
        fle (confidence r) (of_Z 95) = true ∧
        direction r ∈ ["up"; "down"]).
Proof.
  destruct (model p) as [m|] eqn:Hm; [|left; split; [done | by apply predict_untrained]].
  right. destruct (sequences_default d) as (X & y & Hseq & HX & Hy).
  destruct (last X) as [row|] eqn:Hrow; cycle 1.
  { left. apply last_None in Hrow. subst X. cbn in HX.
    split; [done|]. split; [done|]. by eapply predict_no_rows. }
  assert (1 ≤ derivable_rows d) as Hrows.
  { rewrite <- HX. destruct X; [done | cbn; lia]. }
  right. destruct (scaler p) as [st|] eqn:Hst.
  - right.
    destruct (last (bars d)) as [b|] eqn:Hb; cycle 1.
    { apply last_None in Hb. rewrite derivable_rows_eq in Hrows.
      unfold len in Hrows. rewrite Hb in Hrows. cbn in Hrows. lia. }
    eexists. split; [done|]. split; [done|]. split; [done|].
    split; [by eapply predict_trained|].
    cbn [confidence direction].
    destruct (confidence_range m) as [Hlo Hhi].
    split; [done|]. split; [done|].
    destruct (fgt _ _); set_solver.
  - left. split; [done|]. split; [done|]. split; [done|].
    unfold call, predict. rewrite run_bind. cbn [get_self self].
    rewrite Hm, run_bind, prepare_features_run. cbn [self data]. rewrite Hseq.
    rewrite bool_decide_eq_false_2 by (by destruct X).
    rewrite run_bind. cbn [get_self self prepared scaler]. by rewrite Hst.
Qed.

(** Once some [train] has returned, a forest and a fitted scaler are
    installed; before that there is no forest. *)
Lemma reachable_invariant (b : bool) (p : StockPredictor) :
  reachable b p →
  if b then is_Some (model p) ∧ is_Some (scaler p) else model p = None.
Proof.
  induction 1 as [|b p d lb _ IH|b p d t _ IH|b p d k _ IH].
  - done.
  - unfold call. by rewrite prepare_features_run.
  - destruct (train_cases t p d) as [(e & -> & _)|(metrics & m & st & _ & ->)].
    + cbn. by rewrite orb_false_r.
    + cbn. rewrite orb_true_r. by split.
  - destruct (predict_cases k p d)
      as [[_ ->]|[(_ & _ & ->)|[(_ & _ & _ & ->)|(r & _ & _ & _ & -> & _)]]];
      done.
Qed.

(** ** The default split *)

Lemma default_split_valid (n : nat) :
  2 ≤ n → is_ok (validate_shuffle_split n default_test_size) = true.
Proof.
  intros Hn. unfold validate_shuffle_split.
  change (Qc_leb default_test_size 0 || Qc_leb 1 default_test_size) with false.
  cbv iota.
  set (c := Qceiling (this (default_test_size * Qc_of_nat n)%Qc)).
  case_bool_decide as Hz; [exfalso | done].
  pose proof (Qceiling_lt (this (default_test_size * Qc_of_nat n)%Qc)) as Hc.
  fold c in Hc. rewrite this_mult, this_of_nat in Hc.
  change (this default_test_size) with (1 # 5)%Q in Hc.
  assert (inject_Z 2 <= inject_Z (Z.of_nat n))%Q as HN by (rewrite <- Zle_Qle; lia).
  assert (c - 1 < Z.of_nat n - 1)%Z; [|lia].
  rewrite Zlt_Qlt. unfold Z.sub at 2. rewrite inject_Z_plus.
  rewrite inject_Z_opp. change (inject_Z 1) with 1%Q.
  change (inject_Z 2) with 2%Q in HN. lra.
Qed.

Lemma default_split_ok {A B} (X : list A) (y : list B) :
  2 ≤ length X → is_ok (train_test_split X y default_test_size) = true.
Proof.
  intros Hn. unfold train_test_split.
  pose proof (default_split_valid (length X) Hn) as Hv.
  by destruct (validate_shuffle_split _ _) as [[??]|].
Qed.

Lemma predict_prepared (k : nat) (p : StockPredictor) (d : DataFrame) :
  (call (predict k) (prepared p) d).1 = (call (predict k) p d).1 ∧
  data (call (predict k) (prepared p) d).2 = data (call (predict k) p d).2.
Proof.
  unfold call, predict. rewrite !run_bind. cbn [get_self self prepared model].
  destruct (model p) as [m|]; [|done].
  rewrite !run_bind, !prepare_features_run. cbn [self data].
  by change (prepared (prepared p)) with (prepared p).
Qed.

(** ** The specified properties *)

(** C4.  With a lookback of at least one bar, the feature builder returns
    one (row, target) pair for each position [i] from [lookback_days] to
    [len - 2], in order, and nothing else; the row holds the mean, the
    deviation and the latest value of each of the nine indicator columns
    over the window [[i - lookback_days, i)], 27 numbers in all, and the
    target is the relative change of the close from [i] to [i + 1]. *)
Theorem prepare_features_rows
    (p : StockPredictor) (d : DataFrame) (lookback_days : nat) :
  1 ≤ lookback_days →
  ∃ X y,
    (call (prepare_features lookback_days) p d).1 = Ok (X, y) ∧
    indicators_written d (data (call (prepare_features lookback_days) p d).2) ∧
    length X = length (range lookback_days (len d - 1)) ∧
    length y = length X ∧
    ∀ i, lookback_days ≤ i → i + 2 ≤ len d →
         ∃ row t,
           X !! (i - lookback_days) = Some row ∧
           y !! (i - lookback_days) = Some t ∧
           length row = 3 * length indicator_columns ∧
           length row = 27 ∧
           is_feature_row (data (call (prepare_features lookback_days) p d).2)
                          lookback_days i row ∧
           is_target d i t.
Proof.
  intros Hlb. unfold call. rewrite prepare_features_run. cbn [fst snd self data].
  destruct (create_sequences_ok d lookback_days Hlb) as (X & y & Hseq & HX & Hy & Hrows).
  exists X, y. split; [done|]. split; [apply with_indicators_written|].
  unfold range. rewrite length_seq. split; [lia|]. split; [lia|].
  intros i Hi1 Hi2. destruct (Hrows i) as (row & t & ? & ? & ? & ? & ?); [lia..|].
  exists row, t. by repeat split.
Qed.

Lemma indicators_written_unchanged (d d' : DataFrame) :
  indicators_written d d' →
  d' = d ↔ Forall (λ kv, derived d !! kv.1 = Some kv.2) (indicator_table d).
Proof.
  intros (Hbars & Htab & Hrest). split; [by intros <-|].
  intros Hd. destruct d as [bs cols], d' as [bs' cols']. cbn in *. subst bs'.
  f_equal. apply map_eq. intros name.
  destruct (decide (name ∈ written_columns)) as [Hin|Hout]; [|by apply Hrest].
  rewrite <- (indicator_table_names {| bars := bs; derived := cols |}) in Hin.
  apply list_elem_of_fmap in Hin as ([name' s] & -> & Hin).
  rewrite (proj1 (Forall_forall _ _) Htab _ Hin).
  by rewrite (proj1 (Forall_forall _ _) Hd _ Hin).
Qed.

(** Writing the columns a second time changes nothing. *)
Lemma with_indicators_idempotent (d : DataFrame) :
  with_indicators (with_indicators d) = with_indicators d.
Proof.
  apply indicators_written_unchanged; [apply with_indicators_written|].
  destruct (with_indicators_written d) as (_ & Htab & _). exact Htab.
Qed.

(** Past its guard, [predict] leaves the frame [prepare_features] leaves. *)
Lemma predict_frame (k : nat) (p : StockPredictor) (d : DataFrame) :
  is_Some (model p) → data (call (predict k) p d).2 = with_indicators d.
Proof.
  intros Hm.
  destruct (predict_cases k p d)
    as [[Hn _]|[(_ & _ & ->)|[(_ & _ & _ & ->)|(r & _ & _ & _ & -> & _)]]];
    try done.
  rewrite Hn in Hm. by destruct Hm.
Qed.

(** C9 (amended).  [prepare_features] writes its ten columns into the frame
    it is given and touches nothing else; so does every [train] call,
    whatever its outcome, and every [predict] call on a predictor holding a
    model, while [predict] without a model leaves the frame as it is.  The
    write leaves a frame unchanged exactly when it already held the ten
    columns with these values. *)
Theorem prepare_features_writes_frame (p : StockPredictor) (d : DataFrame) :
  (∀ lookback_days,
     indicators_written d (data (call (prepare_features lookback_days) p d).2)) ∧
  (∀ test_size, indicators_written d (data (call (train test_size) p d).2)) ∧
  (∀ days_ahead, is_Some (model p) →
     indicators_written d (data (call (predict days_ahead) p d).2)) ∧
  (∀ days_ahead, model p = None → data (call (predict days_ahead) p d).2 = d) ∧
  (∀ d', indicators_written d d' →
     d' = d ↔ Forall (λ kv, derived d !! kv.1 = Some kv.2) (indicator_table d)).
Proof.
  split; [|split; [|split; [|split]]].
  - intros lb. unfold call. rewrite prepare_features_run.
    apply with_indicators_written.
  - intros t.
    destruct (train_cases t p d) as [(e & -> & _)|(metrics & m & st & _ & ->)];
      apply with_indicators_written.
  - intros k Hm. rewrite predict_frame by done. apply with_indicators_written.
  - intros k Hm. by rewrite predict_untrained.
  - apply indicators_written_unchanged.
Qed.


(** C2.  The rows [train] works on are the rows derivable from the series.
    With fewer than 50 of them every [train] call raises the
    insufficient-data error; with at least 50 the call with the default
    test fraction returns its metrics and installs a model, after which
    [predict] no longer raises the not-trained error. *)
Theorem train_threshold (p : StockPredictor) (d : DataFrame) :
  (∃ X y, (call (prepare_features default_lookback) p d).1 = Ok (X, y) ∧
          length X = derivable_rows d) ∧
  (derivable_rows d < 50 →
   ∀ test_size, (call (train test_size) p d).1 = Raise InsufficientDataError_train) ∧
  (50 ≤ derivable_rows d →
   ∃ metrics,
     (call (train default_test_size) p d).1 = Ok metrics ∧
     is_Some (model (self (call (train default_test_size) p d).2)) ∧
     ∀ d' days_ahead,
       (call (predict days_ahead)
             (self (call (train default_test_size) p d).2) d').1
       ≠ Raise NotTrainedError).
Proof.
  destruct (sequences_default d) as (X & y & Hseq & HX & Hy).
  split; [|split].
  - exists X, y. unfold call. by rewrite prepare_features_run.
  - intros Hlt t. rewrite (train_insufficient t p d X y Hseq); [done | lia].
  - intros Hge.
    pose proof (default_split_ok X y) as Hsplit.
    destruct (train_test_split X y default_test_size)
      as [[[[Xtr Xte] ytr] yte]|e] eqn:Hs; [|by discriminate Hsplit; lia].
    assert (50 ≤ length X) as Hge' by lia.
    destruct (train_success default_test_size p d X y _ _ _ _ Hseq Hge' Hs)
      as (metrics & Hrun & _).
    exists metrics. rewrite Hrun. cbn [fst snd self model].
    split; [done|]. split; [done|]. intros d' k.
    match goal with |- (call _ ?q _).1 ≠ _ => destruct (predict_cases k q d')
      as [[Hn _]|[(_ & _ & ->)|[(_ & _ & _ & ->)|(r & _ & _ & _ & -> & _)]]] end;
      done.
Qed.

(** C10.  When [train] raises the insufficient-data error, the predictor's
    model and scaler are the ones it had before the call, every later
    [predict] returns or raises what it would have without the failed
    call and leaves the same frame, and a predictor without a model still
    raises the not-trained error. *)
Theorem failed_train_keeps_model (p : StockPredictor) (d : DataFrame) (test_size : Qc) :
  (call (train test_size) p d).1 = Raise InsufficientDataError_train →
  let p' := self (call (train test_size) p d).2 in
  model p' = model p ∧
  scaler p' = scaler p ∧
  (∀ d' days_ahead,
     (call (predict days_ahead) p' d').1 = (call (predict days_ahead) p d').1 ∧
     data (call (predict days_ahead) p' d').2 = data (call (predict days_ahead) p d').2) ∧
  (model p = None →
   ∀ d' days_ahead, (call (predict days_ahead) p' d').1 = Raise NotTrainedError).
Proof.
  intros Hfail p'. subst p'.
  destruct (train_cases test_size p d) as [(e & Hrun & _)|(metrics & m & st & _ & Hrun)];
    rewrite Hrun in *; [|done].
  cbn [snd self after_prepare prepared model scaler].
  split; [done|]. split; [done|]. split.
  - intros d' k. apply predict_prepared.
  - intros Hm d' k. by rewrite predict_untrained.
Qed.

(** C1 (amended).  On a predictor no [train] call has returned on,
    [predict] raises the not-trained error for every series.  Once a
    [train] call has returned, [predict] raises the insufficient-data error
    on a series from which no feature row is derivable, and on every other
    series returns a prediction whose confidence lies in [[0, 95]] and
    whose direction is "up" or "down". *)
Theorem predict_contract
    (trained : bool) (p : StockPredictor) (d : DataFrame) (days_ahead : nat) :
  reachable trained p →
  if trained then
    (derivable_rows d = 0 →
     (call (predict days_ahead) p d).1 = Raise InsufficientDataError_predict) ∧
    (1 ≤ derivable_rows d →
     ∃ r, (call (predict days_ahead) p d).1 = Ok r ∧
          fle (of_Z 0) (confidence r) = true ∧
          fle (confidence r) (of_Z 95) = true ∧
          direction r ∈ ["up"; "down"])
  else (call (predict days_ahead) p d).1 = Raise NotTrainedError.
Proof.
  intros Hreach. apply reachable_invariant in Hreach.
  destruct trained.
  - destruct Hreach as [Hm Hs].
    destruct (predict_cases days_ahead p d)
      as [[Hn _]|[(_ & Hr & ->)|[(_ & Hn & _ & _)|(r & _ & _ & Hr & -> & Hc)]]].
    + rewrite Hn in Hm. by destruct Hm.
    + split; [done | lia].
    + rewrite Hn in Hs. by destruct Hs.
    + split; [lia|]. intros _. by exists r.
  - by rewrite predict_untrained.
Qed.

End WithLibraries.

(** ** The properties at concrete series *)

Lemma prepare_features_rows_witness :
  ∃ X y,
    (call (prepare_features 2) init (sample_frame 6)).1 = Ok (X, y) ∧
    indicators_written (sample_frame 6)
      (data (call (prepare_features 2) init (sample_frame 6)).2) ∧
    length X = length (range 2 (len (sample_frame 6) - 1)) ∧
    length y = length X ∧
    ∀ i, 2 ≤ i → i + 2 ≤ len (sample_frame 6) →
         ∃ row t,
           X !! (i - 2) = Some row ∧
           y !! (i - 2) = Some t ∧
           length row = 3 * length indicator_columns ∧
           length row = 27 ∧
           is_feature_row (data (call (prepare_features 2) init (sample_frame 6)).2)
                          2 i row ∧
           is_target (sample_frame 6) i t.
Proof. apply (prepare_features_rows init (sample_frame 6) 2). lia. Defined.

(** A frame fresh from the provider holds none of the columns, so [train]
    changes it. *)
Lemma prepare_features_writes_frame_witness :
  data (call (train default_test_size) init (sample_frame 6)).2 ≠ sample_frame 6.
Proof.
  destruct (prepare_features_writes_frame init (sample_frame 6))
    as (_ & Htrain & _ & _ & Hsame).
  intros Heq. apply (Hsame _ (Htrain default_test_size)) in Heq.
  apply Forall_inv in Heq. discriminate Heq.
Defined.

(** Two calls that leave the series they are passed unchanged: [predict] on
    a predictor without a model raises before the frame is touched, and
    [predict] on the frame a [train] call has just been given rewrites the
    columns that call wrote. *)
Lemma predict_leaves_frame_unchanged :
  ((call (predict 1) init (sample_frame 6)).1 = Raise NotTrainedError ∧
   data (call (predict 1) init (sample_frame 6)).2 = sample_frame 6) ∧
  (is_ok (call (train default_test_size) init (flat_frame 90)).1 = true ∧
   is_ok (call (predict 1)
               (self (call (train default_test_size) init (flat_frame 90)).2)
               (data (call (train default_test_size) init (flat_frame 90)).2)).1
     = true ∧
   data (call (predict 1)
              (self (call (train default_test_size) init (flat_frame 90)).2)
              (data (call (train default_test_size) init (flat_frame 90)).2)).2
     = data (call (train default_test_size) init (flat_frame 90)).2).
Proof.
  split; [split; reflexivity|].
  split; [vm_compute; reflexivity|].
  split; [vm_compute; reflexivity|].
  destruct (train_cases default_test_size init (flat_frame 90))
    as [(e & -> & _)|(metrics & m & st & _ & ->)]; cbn [snd self data after_prepare].
  - by rewrite predict_untrained.
  - rewrite predict_frame by by eexists. apply with_indicators_idempotent.
Qed.


Lemma train_threshold_witness :
  ∃ metrics,
    (call (train default_test_size) init (flat_frame 90)).1 = Ok metrics ∧
    is_Some (model (self (call (train default_test_size) init (flat_frame 90)).2)) ∧
    ∀ d' days_ahead,
      (call (predict days_ahead)
            (self (call (train default_test_size) init (flat_frame 90)).2) d').1
      ≠ Raise NotTrainedError.
Proof.
  apply (train_threshold init (flat_frame 90)). vm_compute. lia.
Defined.

Lemma failed_train_keeps_model_witness :
  let p' := self (call (train default_test_size) init (sample_frame 6)).2 in
  model p' = model init ∧
  scaler p' = scaler init ∧
  (∀ d' days_ahead,
     (call (predict days_ahead) p' d').1 = (call (predict days_ahead) init d').1 ∧
     data (call (predict days_ahead) p' d').2 =
       data (call (predict days_ahead) init d').2) ∧
  (model init = None →
   ∀ d' days_ahead, (call (predict days_ahead) p' d').1 = Raise NotTrainedError).
Proof.
  apply (failed_train_keeps_model init (sample_frame 6) default_test_size).
  vm_compute. reflexivity.
Defined.

(** The predictor left by a [train] call on ninety flat bars. *)
Lemma trained_on_flat_frame :
  reachable true (self (call (train default_test_size) init (flat_frame 90)).2).
Proof.
  assert (is_ok (call (train default_test_size) init (flat_frame 90)).1 = true)
    as Hok by (vm_compute; reflexivity).
  pose proof (reach_train false init (flat_frame 90) default_test_size reach_init) as Hr.
  rewrite Hok in Hr. exact Hr.
Defined.

Lemma predict_contract_witness :
  ∃ r, (call (predict 1)
             (self (call (train default_test_size) init (flat_frame 90)).2)
             (flat_frame 40)).1 = Ok r ∧
       fle (of_Z 0) (confidence r) = true ∧
       fle (confidence r) (of_Z 95) = true ∧
       direction r ∈ ["up"; "down"].
Proof.
  apply (predict_contract true _ (flat_frame 40) 1 trained_on_flat_frame).
  vm_compute. lia.
Defined.

(** After a [train] call that returned, [predict] on a series too short for
    a single feature row raises instead of returning a prediction. *)
Lemma predict_after_train_short_series_raises :
  is_ok (call (train default_test_size) init (flat_frame 90)).1 = true ∧
  (call (predict 1)
        (self (call (train default_test_size) init (flat_frame 90)).2)
        (flat_frame 20)).1 = Raise InsufficientDataError_predict.
Proof. split; vm_compute; reflexivity. Qed.

End PredictorSpec.

(* ===================================================================== *)
(** * More of the indicator engine: EMA, MACD, support and resistance *)
(* ===================================================================== *)

Module IndicatorsSpec.

(** ** Exponential averages *)












(** ** MACD *)


Lemma series_within_weaken (lo hi lo' hi' : Qc) (s : Series) :
  (lo' ≤ lo)%Qc → (hi ≤ hi')%Qc →
  series_within lo hi s → series_within lo' hi' s.
Proof.
  intros Hlo Hhi Hs. eapply Forall_impl; [exact Hs|].
  intros x (q & -> & H1 & H2). exists q. split; [done|].
  split; [exact (Qcle_trans _ _ _ Hlo H1) | exact (Qcle_trans _ _ _ H2 Hhi)].
Qed.








(** ** What the indicator functions reject *)

(** X5.  Every indicator function raises [KeyError] for a column the frame
    does not have, whatever its other arguments. *)
Theorem indicators_reject_unknown_column `{Sqrt}
    (data : DataFrame) (col : string) (window fast slow sig : nat) (num_std : Qc) :
  column data col = None →
  calculate_sma data window col = Raise (KeyError col) ∧
  calculate_ema data window col = Raise (KeyError col) ∧
  calculate_rsi data window col = Raise (KeyError col) ∧
  calculate_macd data fast slow sig col = Raise (KeyError col) ∧
  calculate_bollinger_bands data window num_std col = Raise (KeyError col).
Proof.
  intros Hcol.
  unfold calculate_bollinger_bands, calculate_sma, calculate_ema, calculate_rsi,
    calculate_macd, getitem.
  rewrite Hcol. by repeat split.
Qed.

Lemma indicators_reject_unknown_column_witness :
  calculate_sma (sample_frame 6) 3 "Adj Close" = Raise (KeyError "Adj Close") ∧
  calculate_ema (sample_frame 6) 3 "Adj Close" = Raise (KeyError "Adj Close") ∧
  calculate_rsi (sample_frame 6) 3 "Adj Close" = Raise (KeyError "Adj Close") ∧
  calculate_macd (sample_frame 6) 12 26 9 "Adj Close"
    = Raise (KeyError "Adj Close") ∧
  calculate_bollinger_bands (sample_frame 6) 3 (Qc_of_Z 2) "Adj Close"
    = Raise (KeyError "Adj Close").
Proof. by apply indicators_reject_unknown_column. Defined.

(** X6.  On a column the frame has, a span of zero is rejected with the
    [ValueError] of the exponential window, by the EMA and by the MACD for
    each of its three spans. *)
Theorem zero_span_rejected
    (data : DataFrame) (col : string) (fast slow sig : nat) :
  is_Some (column data col) →
  calculate_ema data 0 col = Raise span_error ∧
  (fast = 0 ∨ slow = 0 ∨ sig = 0 →
   calculate_macd data fast slow sig col = Raise span_error).
Proof.
  intros [s Hs]. unfold calculate_ema, calculate_macd, getitem, ewm.
  rewrite Hs. cbn [mbind outcome_bind]. split; [done|].
  intros Hzero.
  destruct (decide (fast < 1)) as [Hf|Hf];
    [by rewrite (bool_decide_eq_true_2 (fast < 1))|].
  rewrite (bool_decide_eq_false_2 (fast < 1)) by done. cbn [mbind outcome_bind].
  destruct (decide (slow < 1)) as [Hsl|Hsl];
    [by rewrite (bool_decide_eq_true_2 (slow < 1))|].
  rewrite (bool_decide_eq_false_2 (slow < 1)) by done. cbn [mbind outcome_bind].
  rewrite (bool_decide_eq_true_2 (sig < 1)) by lia. done.
Qed.

Lemma zero_span_rejected_witness :
  calculate_ema (sample_frame 6) 0 "Close" = Raise span_error ∧
  (12 = 0 ∨ 26 = 0 ∨ 0 = 0 →
   calculate_macd (sample_frame 6) 12 26 0 "Close" = Raise span_error).
Proof. apply zero_span_rejected. by eexists. Defined.

(** ** Support and resistance *)

Lemma py_min_default_elem (xs : list float) (d : float) :
  xs ≠ [] → py_min_default xs d ∈ xs.
Proof.
  destruct xs as [|x rest]; [done|]. intros _. cbn [py_min_default].
  assert (∀ best, foldl (λ best y, if flt y best then y else best) best rest
                  ∈ best :: rest) as Hfold.
  { induction rest as [|y rest IH]; intros best; [cbn; apply list_elem_of_here|].
    cbn [foldl]. specialize (IH (if flt y best then y else best)).
    apply elem_of_cons in IH as [IH | IH].
    - rewrite IH. destruct (flt y best);
        [apply list_elem_of_further |]; apply list_elem_of_here.
    - by do 2 apply list_elem_of_further. }
  apply Hfold.
Qed.

Lemma py_max_default_elem (xs : list float) (d : float) :
  xs ≠ [] → py_max_default xs d ∈ xs.
Proof.
  destruct xs as [|x rest]; [done|]. intros _. cbn [py_max_default].
  assert (∀ best, foldl (λ best y, if flt best y then y else best) best rest
                  ∈ best :: rest) as Hfold.
  { induction rest as [|y rest IH]; intros best; [cbn; apply list_elem_of_here|].
    cbn [foldl]. specialize (IH (if flt best y then y else best)).
    apply elem_of_cons in IH as [IH | IH].
    - rewrite IH. destruct (flt best y);
        [apply list_elem_of_further |]; apply list_elem_of_here.
    - by do 2 apply list_elem_of_further. }
  apply Hfold.
Qed.

Lemma elem_of_unique (s : Series) (x : float) : x ∈ unique s → x ∈ s.
Proof.
  unfold unique.
  assert (∀ acc, x ∈ foldl (λ seen y, if decide (y ∈ seen) then seen
                                      else seen ++ [y]) acc s →
                 x ∈ acc ∨ x ∈ s) as Hfold.
  { induction s as [|y s IH]; intros acc; [cbn; auto|].
    cbn [foldl]. intros Hx. apply IH in Hx as [Hx | Hx].
    - destruct (decide (y ∈ acc)); [by left|].
      apply elem_of_app in Hx as [Hx | Hx]; [by left|].
      apply list_elem_of_singleton in Hx as ->. right. apply list_elem_of_here.
    - right. by apply list_elem_of_further. }
  intros Hx. apply Hfold in Hx as [Hx | Hx]; [|done].
  by apply elem_of_nil in Hx.
Qed.



Lemma getitem_High (d : DataFrame) :
  getitem d "High" = Ok ((λ b, Fin (high b)) <$> bars d).
Proof. reflexivity. Qed.

Lemma getitem_Low (d : DataFrame) :
  getitem d "Low" = Ok ((λ b, Fin (low b)) <$> bars d).
Proof. reflexivity. Qed.

Lemma getitem_Close (d : DataFrame) :
  getitem d "Close" = Ok ((λ b, Fin (close b)) <$> bars d).
Proof. reflexivity. Qed.

(** The closed form of the function. *)
Lemma levels_run (d : DataFrame) (window : nat) :
  get_support_resistance_levels d window =
    match last (bars d) with
    | None => Raise IndexError
    | Some b =>
        let price := Fin (close b) in
        Ok {| support := py_max_default (support_candidates d window price)
                                        (fmul price support_factor);
              resistance := py_min_default (resistance_candidates d window price)
                                           (fmul price resistance_factor);
              level_price := price |}
    end.
Proof.
  unfold get_support_resistance_levels.
  rewrite getitem_High, getitem_Low, getitem_Close. cbn [mbind outcome_bind].
  rewrite py_index_last, fmap_last.
  by destruct (last (bars d)).
Qed.





Lemma rolling_centered_lookup
    (w : nat) (agg : list Qc → float) (s : Series) (i : nat) :
  i < length s →
  rolling_centered w agg s !! i =
    Some (let obs := observations (centered_window_at w i s) in
          if bool_decide (w ≤ length obs ∧ 0 < length obs) then agg obs else NaN).
Proof.
  intros Hi. unfold rolling_centered.
  rewrite list_lookup_fmap, lookup_seq_lt by done. reflexivity.
Qed.

Lemma length_rolling_centered (w : nat) (agg : list Qc → float) (s : Series) :
  length (rolling_centered w agg s) = length s.
Proof. unfold rolling_centered. by rewrite length_fmap, length_seq. Qed.

Lemma length_centered_window_at (w i : nat) (s : Series) :
  length (centered_window_at w i s) ≤ length s.
Proof. unfold centered_window_at. rewrite length_drop, length_take. lia. Qed.

(** A series shorter than the window has no centred extreme at all. *)
Lemma rolling_centered_short
    (w : nat) (agg : list Qc → float) (s : Series) (i : nat) (y : float) :
  length s < w → rolling_centered w agg s !! i = Some y → y = NaN.
Proof.
  intros Hw Hy. pose proof (lookup_lt_Some _ _ _ Hy) as Hi.
  rewrite length_rolling_centered in Hi.
  rewrite rolling_centered_lookup in Hy by done. injection Hy as <-. cbn zeta.
  rewrite bool_decide_eq_false_2; [done|].
  pose proof (length_observations_le (centered_window_at w i s)).
  pose proof (length_centered_window_at w i s). lia.
Qed.

Lemma where_equal_lookup (s other : Series) (x : float) :
  x ∈ where_equal s other →
  ∃ i y, s !! i = Some x ∧ other !! i = Some y ∧ feq x y = true.
Proof.
  unfold where_equal. rewrite list_elem_of_omap.
  intros ([a b] & Hin & Hab).
  destruct (feq a b) eqn:Heq; [|done]. injection Hab as ->.
  apply list_elem_of_lookup in Hin as [i Hi].
  apply lookup_zip_with_Some in Hi as (a' & b' & [= <- <-] & Ha & Hb).
  by exists i, b.
Qed.

Lemma feq_NaN_r (x : float) : feq x NaN = false.
Proof. by destruct x. Qed.

Lemma where_equal_short (w : nat) (agg : list Qc → float) (s : Series) :
  length s < w → where_equal s (rolling_centered w agg s) = [].
Proof.
  intros Hw. apply elem_of_nil_inv. intros x Hx.
  apply where_equal_lookup in Hx as (i & y & _ & Hy & Heq).
  apply rolling_centered_short in Hy as ->; [|done].
  by rewrite feq_NaN_r in Heq.
Qed.

(** X8.  A frame with fewer bars than the window has no level of its own:
    the call returns the last close with the fallback levels, nine tenths
    and eleven tenths of it; on an empty frame it raises [IndexError]. *)
Theorem levels_short_series (data : DataFrame) (window : nat) :
  len data < window →
  get_support_resistance_levels data window =
    match last (bars data) with
    | None => Raise IndexError
    | Some b =>
        Ok {| support := fmul (Fin (close b)) support_factor;
              resistance := fmul (Fin (close b)) resistance_factor;
              level_price := Fin (close b) |}
    end.
Proof.
  intros Hshort. rewrite levels_run.
  destruct (last (bars data)) as [b|]; [|done].
  unfold support_candidates, resistance_candidates. cbn zeta.
  rewrite !where_equal_short by (by rewrite length_fmap).
  reflexivity.
Qed.

Lemma levels_short_series_witness :
  get_support_resistance_levels (sample_frame 6) 20 =
    match last (bars (sample_frame 6)) with
    | None => Raise IndexError
    | Some b =>
        Ok {| support := fmul (Fin (close b)) support_factor;
              resistance := fmul (Fin (close b)) resistance_factor;
              level_price := Fin (close b) |}
    end.
Proof. apply levels_short_series. cbn. lia. Defined.

Lemma Qc_max_l (a y : Qc) : (a ≤ Qc_max a y)%Qc.
Proof.
  unfold Qc_max. destruct (Qc_ltb a y) eqn:E.
  - by apply Qclt_le_weak, Qc_ltb_lt.
  - apply Qcle_refl.
Qed.

Lemma Qc_max_r (a y : Qc) : (y ≤ Qc_max a y)%Qc.
Proof.
  unfold Qc_max. destruct (Qc_ltb a y) eqn:E.
  - apply Qcle_refl.
  - by apply Qc_ltb_ge.
Qed.

Lemma Qc_min_l (a y : Qc) : (Qc_min a y ≤ a)%Qc.
Proof.
  unfold Qc_min. destruct (Qc_ltb y a) eqn:E.
  - by apply Qclt_le_weak, Qc_ltb_lt.
  - apply Qcle_refl.
Qed.

Lemma Qc_min_r (a y : Qc) : (Qc_min a y ≤ y)%Qc.
Proof.
  unfold Qc_min. destruct (Qc_ltb y a) eqn:E.
  - apply Qcle_refl.
  - by apply Qc_ltb_ge.
Qed.

Lemma foldl_Qc_max_acc (a : Qc) (rest : list Qc) :
  (a ≤ foldl Qc_max a rest)%Qc.
Proof.
  revert a. induction rest as [|y rest IH]; intros a; [apply Qcle_refl|].
  cbn [foldl]. exact (Qcle_trans _ _ _ (Qc_max_l a y) (IH _)).
Qed.

Lemma foldl_Qc_min_acc (a : Qc) (rest : list Qc) :
  (foldl Qc_min a rest ≤ a)%Qc.
Proof.
  revert a. induction rest as [|y rest IH]; intros a; [apply Qcle_refl|].
  cbn [foldl]. exact (Qcle_trans _ _ _ (IH _) (Qc_min_l a y)).
Qed.

Lemma foldl_Qc_max_ge (a : Qc) (rest : list Qc) (x : Qc) :
  x ∈ a :: rest → (x ≤ foldl Qc_max a rest)%Qc.
Proof.
  revert a. induction rest as [|y rest IH]; intros a Hx.
  - apply list_elem_of_singleton in Hx as ->. apply Qcle_refl.
  - cbn [foldl]. apply elem_of_cons in Hx as [-> | Hx].
    + exact (Qcle_trans _ _ _ (Qc_max_l a y) (foldl_Qc_max_acc _ rest)).
    + apply elem_of_cons in Hx as [-> | Hx].
      * exact (Qcle_trans _ _ _ (Qc_max_r a y) (foldl_Qc_max_acc _ rest)).
      * by apply IH, list_elem_of_further.
Qed.

Lemma foldl_Qc_min_le (a : Qc) (rest : list Qc) (x : Qc) :
  x ∈ a :: rest → (foldl Qc_min a rest ≤ x)%Qc.
Proof.
  revert a. induction rest as [|y rest IH]; intros a Hx.
  - apply list_elem_of_singleton in Hx as ->. apply Qcle_refl.
  - cbn [foldl]. apply elem_of_cons in Hx as [-> | Hx].
    + exact (Qcle_trans _ _ _ (foldl_Qc_min_acc _ rest) (Qc_min_l a y)).
    + apply elem_of_cons in Hx as [-> | Hx].
      * exact (Qcle_trans _ _ _ (foldl_Qc_min_acc _ rest) (Qc_min_r a y)).
      * by apply IH, list_elem_of_further.
Qed.

Lemma observations_fmap_Fin {A} (g : A → Qc) (l : list A) :
  observations ((λ b, Fin (g b)) <$> l) = g <$> l.
Proof.
  unfold observations. induction l as [|b l IH]; [done|].
  cbn. by rewrite <- IH.
Qed.

(** What a defined value of the centred aggregate says about the window:
    it is full, and every value in it is an observation the aggregate saw. *)
Lemma centered_window_full {A} (g : A → Qc) (agg : list Qc → float)
    (bs : list A) (w i : nat) (m : Qc) :
  rolling_centered w agg ((λ b, Fin (g b)) <$> bs) !! i = Some (Fin m) →
  let stop := i + 1 + (w - 1) / 2 in
  ∃ obs, agg obs = Fin m ∧ w ≤ stop ∧ stop ≤ length bs ∧
         ∀ j b', stop - w ≤ j < stop → bs !! j = Some b' → g b' ∈ obs.
Proof.
  intros Hm stop. pose proof (lookup_lt_Some _ _ _ Hm) as Hi.
  rewrite length_rolling_centered in Hi.
  rewrite rolling_centered_lookup in Hm by done. injection Hm as Hm.
  cbn zeta in Hm. unfold centered_window_at in Hm. fold stop in Hm.
  rewrite <- fmap_take, <- fmap_drop, observations_fmap_Fin in Hm.
  rewrite length_fmap, length_drop, length_take in Hm.
  case_bool_decide as Hfull; [|done].
  exists (g <$> drop (stop - w) (take stop bs)).
  split; [done|]. split; [lia|]. split; [lia|].
  intros j b' Hj Hb'. apply list_elem_of_fmap_2.
  apply (list_elem_of_lookup_2 _ (j - (stop - w))).
  rewrite lookup_drop, lookup_take_lt by lia.
  by replace (stop - w + (j - (stop - w))) with j by lia.
Qed.

Lemma max_agg_ge (obs : list Qc) (m x : Qc) :
  max_agg obs = Fin m → x ∈ obs → (x ≤ m)%Qc.
Proof.
  destruct obs as [|a rest]; [done|]. intros [= <-]. apply foldl_Qc_max_ge.
Qed.

Lemma min_agg_le (obs : list Qc) (m x : Qc) :
  min_agg obs = Fin m → x ∈ obs → (m ≤ x)%Qc.
Proof.
  destruct obs as [|a rest]; [done|]. intros [= <-]. apply foldl_Qc_min_le.
Qed.

Lemma feq_Fin_l (q : Qc) (y : float) : feq (Fin q) y = true → y = Fin q.
Proof.
  destruct y as [| | |q']; try done. cbn. intros Heq.
  by apply Qc_eqb_eq in Heq as ->.
Qed.

Lemma resistance_candidate_is_high
    (d : DataFrame) (window : nat) (price x : float) :
  x ∈ resistance_candidates d window price →
  fgt x price = true ∧
  ∃ i b, highest_in_window d window i b ∧ x = Fin (high b).
Proof.
  unfold resistance_candidates. cbn zeta. intros Hx.
  apply list_elem_of_filter in Hx as [Hgt Hx]. split; [by apply Is_true_true|].
  apply elem_of_unique, where_equal_lookup in Hx as (i & y & Hs & Hy & Heq).
  rewrite list_lookup_fmap in Hs.
  destruct (bars d !! i) as [b|] eqn:Hb; [|done]. injection Hs as <-.
  apply feq_Fin_l in Heq as ->.
  apply centered_window_full in Hy as (obs & Hagg & Hw & Hstop & Hobs).
  exists i, b. split; [|done].
  split; [done|]. split; [done|]. split; [done|].
  intros j b' Hj Hb'. apply (max_agg_ge obs); [done|]. by eapply Hobs.
Qed.

Lemma support_candidate_is_low
    (d : DataFrame) (window : nat) (price x : float) :
  x ∈ support_candidates d window price →
  flt x price = true ∧
  ∃ i b, lowest_in_window d window i b ∧ x = Fin (low b).
Proof.
  unfold support_candidates. cbn zeta. intros Hx.
  apply list_elem_of_filter in Hx as [Hlt Hx]. split; [by apply Is_true_true|].
  apply elem_of_unique, where_equal_lookup in Hx as (i & y & Hs & Hy & Heq).
  rewrite list_lookup_fmap in Hs.
  destruct (bars d !! i) as [b|] eqn:Hb; [|done]. injection Hs as <-.
  apply feq_Fin_l in Heq as ->.
  apply centered_window_full in Hy as (obs & Hagg & Hw & Hstop & Hobs).
  exists i, b. split; [|done].
  split; [done|]. split; [done|]. split; [done|].
  intros j b' Hj Hb'. apply (min_agg_le obs); [done|]. by eapply Hobs.
Qed.

(** X9.  On a frame with at least one bar, the resistance is either the
    fallback, eleven tenths of the last close, or the high of a bar that is
    the highest of the full window centred on it; the support is either
    nine tenths of the last close or the low of a bar that is the lowest of
    the full window centred on it. *)
Theorem levels_are_fallback_or_extreme (data : DataFrame) (window : nat) :
  1 ≤ len data →
  ∃ r,
    get_support_resistance_levels data window = Ok r ∧
    (resistance r = fmul (level_price r) resistance_factor ∨
     ∃ i b, highest_in_window data window i b ∧ resistance r = Fin (high b)) ∧
    (support r = fmul (level_price r) support_factor ∨
     ∃ i b, lowest_in_window data window i b ∧ support r = Fin (low b)).
Proof.
  intros Hlen. rewrite levels_run.
  destruct (last (bars data)) as [b|] eqn:Hlast.
  2: { apply last_None in Hlast. unfold len in Hlen. rewrite Hlast in Hlen.
       cbn in Hlen. lia. }
  eexists. split; [reflexivity|]. cbn [support resistance level_price]. split.
  - destruct (decide (resistance_candidates data window (Fin (close b)) = []))
      as [-> | Hne]; [by left | right].
    apply (py_min_default_elem _ (fmul (Fin (close b)) resistance_factor)) in Hne.
    by apply resistance_candidate_is_high in Hne as [_ Hne].
  - destruct (decide (support_candidates data window (Fin (close b)) = []))
      as [-> | Hne]; [by left | right].
    apply (py_max_default_elem _ (fmul (Fin (close b)) support_factor)) in Hne.
    by apply support_candidate_is_low in Hne as [_ Hne].
Qed.

Lemma levels_are_fallback_or_extreme_witness :
  ∃ r,
    get_support_resistance_levels (sample_frame 9) 3 = Ok r ∧
    (resistance r = fmul (level_price r) resistance_factor ∨
     ∃ i b, highest_in_window (sample_frame 9) 3 i b ∧
            resistance r = Fin (high b)) ∧
    (support r = fmul (level_price r) support_factor ∨
     ∃ i b, lowest_in_window (sample_frame 9) 3 i b ∧ support r = Fin (low b)).
Proof. apply levels_are_fallback_or_extreme. cbn. lia. Defined.

End IndicatorsSpec.

(* ===================================================================== *)
(** * More of the predictor: feature importance, edge cases, composition *)
(* ===================================================================== *)

Module PredictorBehaviourSpec.
Import PredictorSpec.

(** ** Sorting by score *)

Lemma insert_desc_perm (x : string * Qc) (l : list (string * Qc)) :
  insert_desc x l ≡ₚ x :: l.
Proof.
  induction l as [|y l IH]; [done|]. cbn [insert_desc].
  destruct (Qc_ltb x.2 y.2); [|done].
  rewrite IH. apply perm_swap.
Qed.

Lemma sorted_desc_perm (l : list (string * Qc)) : sorted_desc l ≡ₚ l.
Proof.
  unfold sorted_desc. induction l as [|x l IH]; [done|]. cbn [foldr].
  by rewrite insert_desc_perm, IH.
Qed.

Lemma insert_desc_sorted (x : string * Qc) (l : list (string * Qc)) :
  StronglySorted (λ a b, (b.2 ≤ a.2)%Qc) l →
  StronglySorted (λ a b, (b.2 ≤ a.2)%Qc) (insert_desc x l).
Proof.
  induction 1 as [|y l Hl IH Hy]; cbn [insert_desc].
  - repeat constructor.
  - destruct (Qc_ltb x.2 y.2) eqn:Hlt.
    + constructor; [done|]. rewrite insert_desc_perm.
      constructor; [|done]. by apply Qclt_le_weak, Qc_ltb_lt.
    + apply Qc_ltb_ge in Hlt. constructor; [by constructor|].
      constructor; [done|].
      eapply Forall_impl; [exact Hy|]. intros z Hz. cbn beta in *.
      exact (Qcle_trans _ _ _ Hz Hlt).
Qed.

Lemma sorted_desc_sorted (l : list (string * Qc)) :
  StronglySorted (λ a b, (b.2 ≤ a.2)%Qc) (sorted_desc l).
Proof.
  unfold sorted_desc. induction l as [|x l IH]; [constructor|].
  cbn [foldr]. by apply insert_desc_sorted.
Qed.

(** ** The dict of importances *)

Lemma dict_set_fresh {V} (k : string) (v : V) (d : list (string * V)) :
  k ∉ d.*1 → dict_set k v d = d ++ [(k, v)].
Proof.
  induction d as [|[k' v'] d IH]; [done|]. cbn [dict_set fmap list_fmap fst].
  intros Hk. apply not_elem_of_cons in Hk as [Hne Hk].
  destruct (decide (k = k')); [done|]. cbn. by rewrite IH.
Qed.

Lemma foldl_dict_set_fresh {V} (acc l : list (string * V)) :
  NoDup (acc.*1 ++ l.*1) →
  foldl (λ d kv, dict_set kv.1 kv.2 d) acc l = acc ++ l.
Proof.
  revert acc. induction l as [|[k v] l IH]; intros acc Hnd.
  - by rewrite app_nil_r.
  - cbn [foldl fst snd]. cbn [fmap list_fmap fst] in Hnd.
    rewrite dict_set_fresh.
    + rewrite IH; [by rewrite <- app_assoc|].
      rewrite fmap_app, <- app_assoc. exact Hnd.
    + apply NoDup_app in Hnd as (_ & Hdisj & _).
      intros Hin. apply (Hdisj k Hin). apply list_elem_of_here.
Qed.

Lemma NoDup_fst_zip {A B} (l : list A) (k : list B) :
  NoDup l → NoDup (zip l k).*1.
Proof.
  intros Hl. revert k. induction Hl as [|a l Ha _ IH]; intros k; [constructor|].
  destruct k as [|b k]; [constructor|]. cbn. constructor; [|apply IH].
  intros Hin. apply list_elem_of_fmap in Hin as ([a' b'] & -> & Hin).
  apply Ha. by eapply elem_of_zip_l.
Qed.

Lemma importance_dict_zip (names : list string) (importances : list Qc) :
  NoDup names → importance_dict names importances = zip names importances.
Proof.
  intros Hnd. unfold importance_dict.
  rewrite foldl_dict_set_fresh; [done|]. by apply NoDup_fst_zip.
Qed.

Lemma feature_names_NoDup : NoDup (feature_names indicator_columns).
Proof. apply (bool_decide_unpack _). by vm_compute. Qed.

Section WithEstimators.
Context `{Sqrt, Scaler, Regressor}.

(** Once some [train] has returned, the recorded columns are the nine
    indicator columns. *)
Lemma reachable_columns (b : bool) (p : StockPredictor) :
  reachable b p → b = true → feature_columns p = indicator_columns.
Proof.
  induction 1 as [|b p d lb _ IH|b p d t _ IH|b p d k _ IH].
  - done.
  - intros _. unfold call. by rewrite prepare_features_run.
  - intros _.
    by destruct (train_cases t p d) as [(e & -> & _)|(metrics & m & st & _ & ->)].
  - intros Hb.
    destruct (predict_cases k p d)
      as [[_ ->]|[(_ & _ & ->)|[(_ & _ & _ & ->)|(r & _ & _ & _ & -> & _)]]];
      try done.
    by apply IH.
Qed.

(** X10.  Before any [train] call has returned, [get_feature_importance]
    returns [None].  Once one has, it returns the importances of the
    installed forest paired in order with the names [<column>_mean],
    [<column>_std], [<column>_current] of the nine indicator columns,
    rearranged so that no score is followed by a larger one. *)
Theorem feature_importance_after_training (trained : bool) (p : StockPredictor) :
  reachable trained p →
  if trained then
    ∃ m ranking,
      model p = Some m ∧
      get_feature_importance p = Some ranking ∧
      ranking ≡ₚ zip (feature_names indicator_columns) (feature_importances_ m) ∧
      StronglySorted (λ a b, (b.2 ≤ a.2)%Qc) ranking
  else get_feature_importance p = None.
Proof.
  intros Hreach. pose proof (reachable_invariant _ _ Hreach) as Hinv.
  unfold get_feature_importance. destruct trained.
  - destruct Hinv as [[m Hm] _]. rewrite Hm.
    rewrite (reachable_columns _ _ Hreach eq_refl).
    rewrite importance_dict_zip by apply feature_names_NoDup.
    exists m, (sorted_desc (zip (feature_names indicator_columns)
                                (feature_importances_ m))).
    split; [done|]. split; [done|].
    split; [apply sorted_desc_perm | apply sorted_desc_sorted].
  - by rewrite Hinv.
Qed.

(** ** When [train] returns *)







(** X12.  When [train] raises, the exception is a [ValueError]: the
    insufficient-data error with fewer than 50 rows, otherwise the split's
    error for a test fraction outside (0, 1), otherwise the split's error
    for an empty train part.  The model and the scaler are the ones the
    predictor had before the call. *)
Theorem train_failure_keeps_state
    (test_size : Qc) (p : StockPredictor) (d : DataFrame) :
  is_ok (call (train test_size) p d).1 = false →
  (call (train test_size) p d).1 =
    Raise (if decide (derivable_rows d < 50) then InsufficientDataError_train
           else if Qc_leb test_size 0 || Qc_leb 1 test_size then split_range_error
           else split_empty_error) ∧
  model (self (call (train test_size) p d).2) = model p ∧
  scaler (self (call (train test_size) p d).2) = scaler p.
Proof.
  destruct (sequences_default d) as (X & y & Hseq & HX & Hy).
  destruct (decide (length X < 50)) as [Hlt|Hge].
  - rewrite (train_insufficient test_size p d X y Hseq Hlt). intros _.
    rewrite decide_True by lia. done.
  - assert (50 ≤ length X) as Hge' by lia.
    destruct (train_test_split X y test_size) as [[[[Xtr Xte] ytr] yte]|e] eqn:Hsplit.
    + destruct (train_success test_size p d X y _ _ _ _ Hseq Hge' Hsplit)
        as (metrics & -> & _). done.
    + rewrite (train_split_error test_size p d X y e Hseq Hge' Hsplit). intros _.
      rewrite decide_False by lia. split; [|done]. cbn [fst]. f_equal.
      unfold train_test_split, validate_shuffle_split in Hsplit.
      destruct (Qc_leb test_size 0 || Qc_leb 1 test_size); [by injection Hsplit|].
      cbv zeta in Hsplit. case_bool_decide; [by injection Hsplit | done].
Qed.

(** X13.  The outcome of [train], the frame it leaves and, when it
    returns, the predictor it leaves depend on the frame and the test
    fraction only: whatever model, scaler and column list the predictor
    held before is forgotten. *)
Theorem train_forgets_earlier_state
    (test_size : Qc) (p p' : StockPredictor) (d : DataFrame) :
  (call (train test_size) p d).1 = (call (train test_size) p' d).1 ∧
  data (call (train test_size) p d).2 = data (call (train test_size) p' d).2 ∧
  (is_ok (call (train test_size) p d).1 = true →
   self (call (train test_size) p d).2 = self (call (train test_size) p' d).2).
Proof.
  destruct (sequences_default d) as (X & y & Hseq & HX & Hy).
  destruct (decide (length X < 50)) as [Hlt|Hge].
  - by rewrite !(train_insufficient test_size _ d X y Hseq Hlt).
  - assert (50 ≤ length X) as Hge' by lia.
    destruct (train_test_split X y test_size) as [[[[Xtr Xte] ytr] yte]|e] eqn:Hsplit.
    + destruct (train_success test_size p d X y _ _ _ _ Hseq Hge' Hsplit)
        as (m1 & -> & A1 & A2 & A3 & A4 & A5 & A6).
      destruct (train_success test_size p' d X y _ _ _ _ Hseq Hge' Hsplit)
        as (m2 & -> & B1 & B2 & B3 & B4 & B5 & B6).
      cbn [fst snd self data]. split; [|done].
      destruct m1, m2. cbn in *. congruence.
    + by rewrite !(train_split_error test_size _ d X y e Hseq Hge' Hsplit).
Qed.

(** ** What [predict] does and does not do *)

(** X14.  Neither [prepare_features] nor [predict] touches the model or
    the scaler, and [predict] makes no use of [days_ahead]: every horizon
    gives the same result and the same state. *)
Theorem predict_keeps_model
    (p : StockPredictor) (d : DataFrame) (days_ahead lookback_days : nat) :
  (model (self (call (predict days_ahead) p d).2) = model p ∧
   scaler (self (call (predict days_ahead) p d).2) = scaler p) ∧
  (model (self (call (prepare_features lookback_days) p d).2) = model p ∧
   scaler (self (call (prepare_features lookback_days) p d).2) = scaler p) ∧
  ∀ days_ahead', call (predict days_ahead') p d = call (predict days_ahead) p d.
Proof.
  split; [|split].
  - by destruct (predict_cases days_ahead p d)
      as [[_ ->]|[(_ & _ & ->)|[(_ & _ & _ & ->)|(r & _ & _ & _ & -> & _)]]].
  - unfold call. by rewrite prepare_features_run.
  - done.
Qed.



(** ** Edge cases of the feature builder *)

Lemma range_cons (a b : nat) : a < b → range a b = a :: range (S a) b.
Proof.
  intros Hab. unfold range.
  replace (b - a) with (S (b - S a)) by lia. reflexivity.
Qed.

(** X16.  With a lookback of zero the window of every position is empty:
    on a series of two or more bars [prepare_features] raises [IndexError]
    at the first position, and on a series of at most one bar it returns
    no rows. *)
Theorem prepare_features_zero_lookback (p : StockPredictor) (d : DataFrame) :
  (len d ≤ 1 → (call (prepare_features 0) p d).1 = Ok ([], [])) ∧
  (2 ≤ len d → (call (prepare_features 0) p d).1 = Raise IndexError).
Proof.
  unfold call. rewrite prepare_features_run. cbn [fst data].
  unfold create_sequences. change (len (with_indicators d)) with (len d).
  split; intros Hlen.
  - unfold range. by replace (len d - 1 - 0) with 0 by lia.
  - rewrite range_cons by lia. cbn [mapM].
    assert (feature_row (with_indicators d) indicator_columns 0 0 = Raise IndexError)
      as ->; [|done].
    unfold feature_row, indicator_columns. cbn [mapM].
    assert (column_features (with_indicators d) 0 0 "sma_5" = Raise IndexError)
      as ->; [|done].
    destruct (indicator_column d "sma_5") as (s & Hs & _);
      [apply list_elem_of_here|].
    unfold column_features, has_column, getitem. rewrite Hs.
    by rewrite bool_decide_eq_true_2 by by eexists.
Qed.

(** X17.  The indicator columns are recomputed from the provider's columns
    on every call, so a frame that an earlier call has already annotated
    gives the same features, the same training outcome and the same
    prediction as the raw frame, and [prepare_features] leaves such a frame
    as it is. *)
Theorem annotated_frame_same_results
    (p q : StockPredictor) (d : DataFrame)
    (lookback_days days_ahead : nat) (test_size : Qc) :
  let d' := data (call (prepare_features lookback_days) q d).2 in
  (∀ lb, (call (prepare_features lb) p d').1 = (call (prepare_features lb) p d).1 ∧
         data (call (prepare_features lb) p d').2 = d') ∧
  (call (train test_size) p d').1 = (call (train test_size) p d).1 ∧
  (call (predict days_ahead) p d').1 = (call (predict days_ahead) p d).1.
Proof.
  unfold call. rewrite prepare_features_run. cbn [snd data]. split; [|split].
  - intros lb. rewrite !prepare_features_run. cbn [fst snd data].
    by rewrite with_indicators_idempotent.
  - unfold train. rewrite !run_bind, !prepare_features_run. cbn [self data].
    by rewrite with_indicators_idempotent.
  - unfold predict. rewrite !run_bind. cbn [get_self self].
    destruct (model p) as [m|]; [|done].
    rewrite !run_bind, !prepare_features_run. cbn [self data].
    by rewrite with_indicators_idempotent.
Qed.

(** ** [train] followed by [predict] on the same frame *)

Lemma train_then_predict (p : StockPredictor) (d : DataFrame) (days_ahead : nat) :
  50 ≤ derivable_rows d →
  ∃ metrics r p1 b,
    call (train default_test_size) p d
      = (Ok metrics, {| self := p1; data := with_indicators d |}) ∧
    call (predict days_ahead) p1 (with_indicators d)
      = (Ok r, {| self := p1; data := with_indicators d |}) ∧
    is_Some (model p1) ∧ is_Some (scaler p1) ∧
    train_samples metrics + test_samples metrics = derivable_rows d ∧
    last (bars d) = Some b ∧ current_price r = Fin (close b) ∧
    fle (of_Z 0) (confidence r) = true ∧
    fle (confidence r) (of_Z 95) = true ∧
    direction r ∈ ["up"; "down"].
Proof.
  intros Hrows.
  destruct (sequences_default d) as (X & y & Hseq & HX & Hy).
  assert (50 ≤ length X) as Hge by lia.
  pose proof (default_split_ok X y) as Hsplit.
  destruct (train_test_split X y default_test_size)
    as [[[[Xtr Xte] ytr] yte]|e] eqn:Hs; [|by discriminate Hsplit; lia].
  destruct (train_success default_test_size p d X y _ _ _ _ Hseq Hge Hs)
    as (metrics & Hrun & Htr & Hte & _).
  apply train_test_split_ordered in Hs as (Hk & -> & -> & -> & ->); [|lia].
  set (p1 := {| model := _; scaler := _; feature_columns := _ |}) in Hrun.
  destruct (last X) as [row|] eqn:Hrow; cycle 1.
  { apply last_None in Hrow. subst X. cbn in Hge. lia. }
  destruct (last (bars d)) as [b|] eqn:Hb; cycle 1.
  { apply last_None in Hb. rewrite derivable_rows_eq in Hrows.
    unfold len in Hrows. rewrite Hb in Hrows. cbn in Hrows. lia. }
  exists metrics. eexists _, p1, b. split; [exact Hrun|]. split.
  - rewrite (predict_trained days_ahead p1 (with_indicators d) _ _ X y row b
               eq_refl eq_refl); [| by rewrite with_indicators_idempotent | done | done].
    unfold after_prepare. rewrite with_indicators_idempotent. reflexivity.
  - cbn [current_price confidence direction].
    destruct (confidence_range (forest_fit
                (scaler_transform (scaler_fit (take (spec_n_train (length X)
                   default_test_size) X))
                   (take (spec_n_train (length X) default_test_size) X))
                (take (spec_n_train (length X) default_test_size) y)))
      as [Hlo Hhi].
    split; [by eexists|]. split; [by eexists|].
    split; [rewrite Htr, Hte, length_take, length_drop; lia|].
    split; [done|]. split; [done|]. split; [exact Hlo|]. split; [exact Hhi|].
    destruct (fgt _ _); [apply list_elem_of_here|].
    apply list_elem_of_further, list_elem_of_here.
Qed.

End WithEstimators.

Lemma feature_importance_after_training_witness :
  ∃ m ranking,
    model (self (call (train default_test_size) init (flat_frame 90)).2) = Some m ∧
    get_feature_importance
      (self (call (train default_test_size) init (flat_frame 90)).2) = Some ranking ∧
    ranking ≡ₚ zip (feature_names indicator_columns) (feature_importances_ m) ∧
    StronglySorted (λ a b, (b.2 ≤ a.2)%Qc) ranking.
Proof.
  exact (feature_importance_after_training true _ trained_on_flat_frame).
Defined.

Lemma train_failure_keeps_state_witness :
  (call (train (Qc_of_Z 1)) init (flat_frame 90)).1 =
    Raise (if decide (derivable_rows (flat_frame 90) < 50)
           then InsufficientDataError_train
           else if Qc_leb (Qc_of_Z 1) 0 || Qc_leb 1 (Qc_of_Z 1) then split_range_error
           else split_empty_error) ∧
  model (self (call (train (Qc_of_Z 1)) init (flat_frame 90)).2) = model init ∧
  scaler (self (call (train (Qc_of_Z 1)) init (flat_frame 90)).2) = scaler init.
Proof.
  apply (train_failure_keeps_state (Qc_of_Z 1) init (flat_frame 90)).
  vm_compute. reflexivity.
Defined.


End PredictorBehaviourSpec.

(* ===================================================================== *)
(** * The prediction route *)
(* ===================================================================== *)

Module RoutesSpec.
Import PredictorSpec PredictorBehaviourSpec.

Section WithServices.
Context `{Sqrt, Scaler, Regressor}.
Variable get_stock_data : string → string → string → option DataFrame.
Variable upper : string → string.
Variable str_library : exn → string.
Variable str_http : nat → string → string.

(** X18.  When the fetcher hands back at least 100 bars, the route trains
    the shared predictor on them and predicts from the same frame without
    an error, whatever state the predictor was in: it returns a body with
    the upper-cased symbol, sample counts that add up to [len - 31], the
    last close as current price, a confidence in [[0, 95]] and a direction
    "up" or "down", and leaves a model and a fitted scaler installed. *)
Theorem predict_route_returns
    (request_symbol : string) (days_ahead : nat) (predictor : StockPredictor)
    (frame : DataFrame) :
  get_stock_data (upper request_symbol) "2y" "1d" = Some frame →
  100 ≤ len frame →
  ∃ body predictor' b,
    predict_stock_price get_stock_data upper str_library str_http
                        request_symbol days_ahead predictor
      = (Returned body, predictor') ∧
    symbol body = upper request_symbol ∧
    disclaimer body = disclaimer_text ∧
    train_samples (training_metrics body) + test_samples (training_metrics body)
      = len frame - 31 ∧
    last (bars frame) = Some b ∧
    current_price (prediction body) = Fin (close b) ∧
    fle (of_Z 0) (confidence (prediction body)) = true ∧
    fle (confidence (prediction body)) (of_Z 95) = true ∧
    direction (prediction body) ∈ ["up"; "down"] ∧
    is_Some (model predictor') ∧ is_Some (scaler predictor').
Proof.
  intros Hget Hlen.
  assert (derivable_rows frame = len frame - 31) as Hrows
    by (rewrite derivable_rows_eq; unfold default_lookback; lia).
  destruct (train_then_predict predictor frame days_ahead)
    as (metrics & r & p1 & b & Htrain & Hpredict & Hm & Hs & Hsum & Hb & Hrest);
    [lia|].
  unfold predict_stock_price, predict_stock_price_try. rewrite Hget.
  rewrite bool_decide_eq_false_2 by lia.
  rewrite Htrain. cbn [self data]. rewrite Hpredict. cbn [self].
  eexists _, p1, b. split; [reflexivity|].
  cbn [symbol disclaimer training_metrics prediction].
  split; [done|]. split; [done|]. split; [by rewrite Hsum|]. split; [done|].
  destruct Hrest as (? & ? & ? & ?). by repeat split.
Qed.

(** X19.  When the fetcher hands back nothing, or fewer than 100 bars, the
    route's own 400 does not reach the client: the [HTTPException] is
    raised inside the [try], is not a [ValueError], and is answered by the
    last handler with status 500 and the text of the 400 as detail.  The
    shared predictor is not touched. *)
Theorem predict_route_insufficient_is_500
    (request_symbol : string) (days_ahead : nat) (predictor : StockPredictor) :
  let points :=
    from_option len 0 (get_stock_data (upper request_symbol) "2y" "1d") in
  points < 100 →
  predict_stock_price get_stock_data upper str_library str_http
                      request_symbol days_ahead predictor
    = (Failed 500 (str_http 400 (insufficient_detail points)), predictor).
Proof.
  intros points Hpoints. subst points.
  unfold predict_stock_price, predict_stock_price_try.
  destruct (get_stock_data (upper request_symbol) "2y" "1d") as [frame|];
    cbn [from_option] in *; [|done].
  by rewrite bool_decide_eq_true_2.
Qed.

End WithServices.

Lemma predict_route_returns_witness :
  ∃ body predictor' b,
    predict_stock_price (λ _ _ _, Some (flat_frame 100)) (λ s, s)
                        (λ _, "") (λ code detail, pretty code +:+ ": " +:+ detail)
                        "AAPL" 1 init
      = (Returned body, predictor') ∧
    symbol body = "AAPL" ∧
    disclaimer body = disclaimer_text ∧
    train_samples (training_metrics body) + test_samples (training_metrics body)
      = len (flat_frame 100) - 31 ∧
    last (bars (flat_frame 100)) = Some b ∧
    current_price (prediction body) = Fin (close b) ∧
    fle (of_Z 0) (confidence (prediction body)) = true ∧
    fle (confidence (prediction body)) (of_Z 95) = true ∧
    direction (prediction body) ∈ ["up"; "down"] ∧
    is_Some (model predictor') ∧ is_Some (scaler predictor').
Proof.
  apply (predict_route_returns (λ _ _ _, Some (flat_frame 100)) (λ s, s)
           (λ _, "") (λ code detail, pretty code +:+ ": " +:+ detail)
           "AAPL" 1 init (flat_frame 100)); [reflexivity|].
  vm_compute. lia.
Defined.

Lemma predict_route_insufficient_is_500_witness :
  predict_stock_price (λ _ _ _, Some (sample_frame 6)) (λ s, s)
                      (λ _, "") (λ code detail, pretty code +:+ ": " +:+ detail)
                      "AAPL" 1 init
    = (Failed 500 (pretty 400 +:+ ": " +:+ insufficient_detail (len (sample_frame 6))),
       init).
Proof.
  apply (predict_route_insufficient_is_500 (λ _ _ _, Some (sample_frame 6)) (λ s, s)
           (λ _, "") (λ code detail, pretty code +:+ ": " +:+ detail) "AAPL" 1 init).
  vm_compute. lia.
Defined.

End RoutesSpec.
